(** * Transaction / attachment matching engine ([src/match.py])

    A shallow embedding of the matching heuristics of [src/match.py] and the
    properties its specification states about them.

    Modelling conventions.
    - A Python [str] is a [string]; the text functions ([str.upper],
      [str.lower], [str.isdigit], the token regular expression and
      [datetime.strptime]) are modelled on ASCII text, where they coincide with
      the definitions below.
    - A JSON number (an amount) and every score is an exact rational ([Q]):
      the arithmetic of the source is carried out without rounding.
    - A dictionary field read with [.get] is an [option]; a field read with
      [x["id"]] is a mandatory record field.
    - A parsed date is its proleptic Gregorian ordinal (a [Z]); the only use
      the source makes of a [datetime] is the day difference of two of them. *)

From Stdlib Require Import List String Ascii Bool ZArith QArith Qabs Lia Lqa.
From Stdlib Require Import Permutation Sorted.
Import ListNotations.

Open Scope string_scope.
Open Scope list_scope.
Open Scope Z_scope.

(** ** Python text primitives (ASCII) *)

Module PyStr.

Definition is_digit (c : ascii) : bool := (("0" <=? c) && (c <=? "9"))%char.
Definition is_lower (c : ascii) : bool := (("a" <=? c) && (c <=? "z"))%char.
Definition is_upper (c : ascii) : bool := (("A" <=? c) && (c <=? "Z"))%char.

Definition upper_char (c : ascii) : ascii :=
  if is_lower c then ascii_of_N (N_of_ascii c - 32) else c.
Definition lower_char (c : ascii) : ascii :=
  if is_upper c then ascii_of_N (N_of_ascii c + 32) else c.

Fixpoint map (f : ascii -> ascii) (s : string) : string :=
  match s with
  | EmptyString => EmptyString
  | String c r => String (f c) (map f r)
  end.

Fixpoint forallb (p : ascii -> bool) (s : string) : bool :=
  match s with
  | EmptyString => true
  | String c r => p c && forallb p r
  end.

(** [s.upper()] and [s.lower()] *)
Definition upper : string -> string := map upper_char.
Definition lower : string -> string := map lower_char.

(** [s.replace] of the space by the empty string *)
Fixpoint remove_spaces (s : string) : string :=
  match s with
  | EmptyString => EmptyString
  | String c r => if (c =? " ")%char then remove_spaces r
                  else String c (remove_spaces r)
  end.

(** [s.isdigit()]: false on the empty string *)
Definition isdigit (s : string) : bool :=
  match s with
  | EmptyString => false
  | _ => forallb is_digit s
  end.

(** [s.lstrip("0")] *)
Fixpoint lstrip_zeros (s : string) : string :=
  match s with
  | String c r => if (c =? "0")%char then lstrip_zeros r else s
  | EmptyString => EmptyString
  end.

(** Truth value of an [Optional[str]]: [None] and the empty string are false. *)
Definition truthy (o : option string) : bool :=
  match o with
  | None => false
  | Some EmptyString => false
  | Some _ => true
  end.

(** Python's [a or b] on strings. *)
Definition or_else (a b : string) : string :=
  match a with EmptyString => b | _ => a end.

(** The whitespace characters of [str.isspace] in ASCII. *)
Definition is_space (c : ascii) : bool :=
  let n := N_of_ascii c in
  ((9 <=? n) && (n <=? 13) || (28 <=? n) && (n <=? 32))%N.

End PyStr.

(** ** [_normalize_reference] *)

Definition _normalize_reference (ref : option string) : option string :=
  if negb (PyStr.truthy ref) then None
  else
    match ref with
    | None => None
    | Some r =>
        let cleaned := PyStr.upper (PyStr.remove_spaces r) in
        if PyStr.isdigit cleaned
        then Some (PyStr.or_else (PyStr.lstrip_zeros cleaned) "0")
        else Some cleaned
    end.

(** ** [datetime.strptime(value, "%Y-%m-%d")] and [_parse_date] *)

Module PyDate.

Definition digit_val (c : ascii) : Z := Z.of_N (N_of_ascii c) - 48.

Definition in_range (lo hi c : ascii) : bool := ((lo <=? c) && (c <=? hi))%char.

(** [%Y] is the group [\d\d\d\d]. *)
Definition re_year (s : string) : option (Z * string) :=
  match s with
  | String a (String b (String c (String d r))) =>
      if PyStr.is_digit a && PyStr.is_digit b && PyStr.is_digit c && PyStr.is_digit d
      then Some (1000 * digit_val a + 100 * digit_val b + 10 * digit_val c + digit_val d, r)
      else None
  | _ => None
  end.

(** A two-character alternative [x[lo-hi]] and a one-character
    alternative [[lo-hi]] of a group; each gives the matched number. *)
Definition two_chars (lo1 hi1 lo2 hi2 : ascii) (s : string) : option (Z * string) :=
  match s with
  | String a (String b r) =>
      if in_range lo1 hi1 a && in_range lo2 hi2 b
      then Some (10 * digit_val a + digit_val b, r) else None
  | _ => None
  end.

Definition one_char (lo hi : ascii) (s : string) : option (Z * string) :=
  match s with
  | String a r => if in_range lo hi a then Some (digit_val a, r) else None
  | _ => None
  end.

(** The alternative [ [1-9]] of [%d]: a space, then a digit. *)
Definition space_digit (s : string) : option (Z * string) :=
  match s with
  | String a (String b r) =>
      if (a =? " ")%char && in_range "1" "9" b then Some (digit_val b, r) else None
  | _ => None
  end.

Definition expect_dash (s : string) : option string :=
  match s with
  | String a r => if (a =? "-")%char then Some r else None
  | _ => None
  end.

(** Ordered choice: the first alternative whose continuation succeeds. *)
Fixpoint first_match {A B : Type} (alts : list (string -> option (A * string)))
         (k : A -> string -> option B) (s : string) : option B :=
  match alts with
  | [] => None
  | alt :: rest =>
      match alt s with
      | Some (v, r) =>
          match k v r with
          | Some b => Some b
          | None => first_match rest k s
          end
      | None => first_match rest k s
      end
  end.

(** [%m] is [1[0-2]|0[1-9]|[1-9]], [%d] is [3[01]|[12]\d|0[1-9]|[1-9]| [1-9]]. *)
Definition re_month_alts : list (string -> option (Z * string)) :=
  [ two_chars "1" "1" "0" "2"; two_chars "0" "0" "1" "9"; one_char "1" "9" ].
Definition re_day_alts : list (string -> option (Z * string)) :=
  [ two_chars "3" "3" "0" "1"; two_chars "1" "2" "0" "9";
    two_chars "0" "0" "1" "9"; one_char "1" "9"; space_digit ].

(** [format_regex.match(data_string)]: the groups and the unmatched rest. *)
Definition re_match (s : string) : option (Z * Z * Z * string) :=
  match re_year s with
  | None => None
  | Some (y, r1) =>
      match expect_dash r1 with
      | None => None
      | Some r2 =>
          first_match re_month_alts
            (fun m r3 =>
               match expect_dash r3 with
               | None => None
               | Some r4 =>
                   first_match re_day_alts (fun d r5 => Some (y, m, d, r5)) r4
               end) r2
      end
  end.

Definition is_leap (y : Z) : bool :=
  (y mod 4 =? 0) && (negb (y mod 100 =? 0) || (y mod 400 =? 0)).

Definition days_in_month (y m : Z) : Z :=
  if m =? 2 then (if is_leap y then 29 else 28)
  else if (m =? 4) || (m =? 6) || (m =? 9) || (m =? 11) then 30 else 31.

Definition days_before_year (y : Z) : Z :=
  let p := y - 1 in p * 365 + p / 4 - p / 100 + p / 400.

Fixpoint days_before_month_aux (y : Z) (n : nat) : Z :=
  match n with
  | O => 0
  | S k => days_before_month_aux y k + days_in_month y (Z.of_nat (S k))
  end.

(** Days of the year [y] that precede the first day of month [m]. *)
Definition days_before_month (y m : Z) : Z :=
  days_before_month_aux y (Z.to_nat (m - 1)).

Definition ymd2ord (y m d : Z) : Z :=
  days_before_year y + days_before_month y m + d.

Inductive result : Type :=
| ValueError : result
| Date : Z -> result.

(** The whole of [strptime]: the regular expression has to match, nothing
    may remain after it, and the fields have to name a day of the calendar
    (years 1 to 9999). The date is returned as its ordinal. *)
Definition strptime (s : string) : result :=
  match re_match s with
  | None => ValueError
  | Some (y, m, d, rest) =>
      match rest with
      | EmptyString =>
          if (1 <=? y) && (1 <=? m) && (m <=? 12) && (1 <=? d) && (d <=? days_in_month y m)
          then Date (ymd2ord y m d)
          else ValueError
      | _ => ValueError
      end
  end.

End PyDate.

Definition _parse_date (value : option string) : option Z :=
  if negb (PyStr.truthy value) then None
  else
    match value with
    | None => None
    | Some v =>
        match PyDate.strptime v with
        | PyDate.Date d => Some d
        | PyDate.ValueError => None
        end
    end.

(** ** Rational arithmetic as the source uses it *)

Definition Qltb (a b : Q) : bool := negb (Qle_bool b a).

(** Python's [max(a, b)]: the first argument unless the second is larger. *)
Definition py_max (a b : Q) : Q := if Qltb a b then b else a.

(** The tolerance [1e-6]. *)
Definition eps : Q := 1 # 1000000.

(** ** [_tokenize] and [_name_similarity] *)

Definition _STOP_WORDS : list string :=
  ["oy"; "oyj"; "ltd"; "tmi"; "inc"; "oy."; "oy,"].

Definition mem (t : string) (l : list string) : bool :=
  existsb (String.eqb t) l.

Definition is_token_char (c : ascii) : bool :=
  PyStr.is_upper c || PyStr.is_lower c || PyStr.is_digit c.

Definition flush (cur : string) : list string :=
  match cur with EmptyString => [] | _ => [cur] end.

(** [_TOKEN_RE.findall(name)]: the maximal runs of [[A-Za-z0-9]], left to
    right; [cur] is the run being read. *)
Fixpoint findall (cur : string) (s : string) : list string :=
  match s with
  | EmptyString => flush cur
  | String c r =>
      if is_token_char c then findall (cur ++ String c EmptyString)%string r
      else flush cur ++ findall EmptyString r
  end.

(** A Python [set] of strings is a duplicate-free list. *)
Definition set_of (l : list string) : list string := nodup string_dec l.
Definition set_inter (a b : list string) : list string :=
  filter (fun t => mem t b) a.
Definition set_union (a b : list string) : list string :=
  nodup string_dec (a ++ b).

Definition _tokenize (name : option string) : list string :=
  if negb (PyStr.truthy name) then []
  else
    match name with
    | None => []
    | Some n =>
        let tokens := set_of (List.map PyStr.lower (findall EmptyString n)) in
        filter (fun t => negb (mem t _STOP_WORDS)) tokens
    end.

Definition is_empty {A : Type} (l : list A) : bool :=
  match l with [] => true | _ => false end.

Definition Qnat (n : nat) : Q := inject_Z (Z.of_nat n).

Definition _name_similarity (a b : option string) : Q :=
  let ta := _tokenize a in
  let tb := _tokenize b in
  if is_empty ta || is_empty tb then 0%Q
  else
    let inter := List.length (set_inter ta tb) in
    if Nat.eqb inter 0 then 0%Q
    else
      let union := List.length (set_union ta tb) in
      (Qnat inter / Qnat union)%Q.

(** ** The records of the data model *)

Record Transaction : Type := mkTransaction {
  tx_id : Z;
  tx_amount : option Q;
  tx_date : option string;
  tx_reference : option string;
  tx_contact : option string
}.

Record AttachmentData : Type := mkData {
  supplier : option string;
  issuer : option string;
  recipient : option string;
  total_amount : option Q;
  reference : option string;
  due_date : option string;
  invoicing_date : option string;
  receiving_date : option string
}.

Record Attachment : Type := mkAttachment {
  att_id : Z;
  att_data : option AttachmentData
}.

(** [att.get("data", {})]: a missing [data] reads as the empty dictionary. *)
Definition empty_data : AttachmentData :=
  mkData None None None None None None None None.

Definition get_data (att : Attachment) : AttachmentData :=
  match att_data att with Some d => d | None => empty_data end.

(** ** Scoring primitives *)

Definition own_company : string := "example company oy".

Definition _attachment_names (att : Attachment) : list string :=
  let data := get_data att in
  flat_map
    (fun val : option string =>
       match val with
       | Some v =>
           if PyStr.truthy val && negb (String.eqb (PyStr.lower v) own_company)
           then [v] else []
       | None => []
       end)
    [supplier data; issuer data; recipient data].

(** The loop [best = max(best, _name_similarity(contact, name))]. *)
Definition max_similarity (contact : option string) (names : list string) : Q :=
  fold_left (fun best name => py_max best (_name_similarity contact (Some name)))
            names 0%Q.

Definition _best_name_similarity (transaction_contact : option string)
           (att : Attachment) : Q :=
  if negb (PyStr.truthy transaction_contact) then 0%Q
  else max_similarity transaction_contact (_attachment_names att).

Fixpoint keep_some {A : Type} (l : list (option A)) : list A :=
  match l with
  | [] => []
  | Some x :: r => x :: keep_some r
  | None :: r => keep_some r
  end.

(** Python's [min] of a non-empty list of integers. *)
Definition list_min (x : Z) (l : list Z) : Z := fold_left Z.min l x.

Definition sentinel : Z := 10000.

Definition _date_distance_days (tx_date : Z) (att : Attachment) : Z :=
  let data := get_data att in
  let candidates :=
    [ _parse_date (due_date data);
      _parse_date (invoicing_date data);
      _parse_date (receiving_date data) ] in
  let distances := List.map (fun d => Z.abs (d - tx_date)) (keep_some candidates) in
  match distances with
  | [] => sentinel
  | x :: r => list_min x r
  end.

Definition _is_amount_match (tx : Transaction) (att : Attachment) : bool :=
  match tx_amount tx, total_amount (get_data att) with
  | Some tx_amount, Some att_amount =>
      Qltb (Qabs (tx_amount - att_amount)) eps
      || Qltb (Qabs (Qabs tx_amount - att_amount)) eps
  | _, _ => false
  end.

Definition opt_eqb (a b : option string) : bool :=
  match a, b with
  | Some x, Some y => String.eqb x y
  | _, _ => false
  end.

Definition _reference_match (tx : Transaction) (att : Attachment) : bool :=
  let tx_ref := _normalize_reference (tx_reference tx) in
  let att_ref := _normalize_reference (reference (get_data att)) in
  opt_eqb tx_ref att_ref.

(** [date_bonus = 0.0; if dist <= 30: date_bonus = 1 - dist / 30] *)
Definition date_bonus (dist : Z) : Q :=
  if dist <=? 30 then (1 - inject_Z dist / 30)%Q else 0%Q.

Definition composite_score (name_sim : Q) (dist : Z) : Q :=
  (1 + name_sim + date_bonus dist)%Q.

(** ** Ranking: [candidates.sort(key=lambda x: (-x[1], x[2], x[0]["id"]))] *)

(** A candidate is the tuple [(record, composite_score, date_distance)]. *)
Definition cand (R : Type) : Type := (R * Q * Z)%type.
Definition c_rec {R : Type} (c : cand R) : R := fst (fst c).
Definition c_score {R : Type} (c : cand R) : Q := snd (fst c).
Definition c_dist {R : Type} (c : cand R) : Z := snd c.

Section Ranking.

Context {R : Type} (id : R -> Z).

(** Python's [<] on the key tuples: the first component that differs
    decides. *)
Definition key_ltb (a b : cand R) : bool :=
  if negb (Qeq_bool (- c_score a) (- c_score b))
  then Qltb (- c_score a) (- c_score b)
  else if negb (c_dist a =? c_dist b)
  then c_dist a <? c_dist b
  else id (c_rec a) <? id (c_rec b).

(** [list.sort] is stable: an element moves behind a later one only when
    the later one's key is strictly smaller. *)
Fixpoint insert (c : cand R) (l : list (cand R)) : list (cand R) :=
  match l with
  | [] => [c]
  | h :: t => if key_ltb h c then h :: insert c t else c :: h :: t
  end.

Fixpoint sort (l : list (cand R)) : list (cand R) :=
  match l with
  | [] => []
  | h :: t => insert h (sort t)
  end.

(** Sort, then take the record of the first element if there is one. *)
Definition select_first (candidates : list (cand R)) : option R :=
  match sort candidates with
  | [] => None
  | c :: _ => Some (c_rec c)
  end.

End Ranking.

Definition _select_best (candidates : list (cand Attachment)) : option Attachment :=
  select_first att_id candidates.

(** ** [find_attachment] *)

(** Phase 1: the loop over the attachments, entered when the transaction's
    normalized reference is true (not [None], not empty). *)
Definition attachment_by_reference (transaction : Transaction)
           (attachments : list Attachment) : option Attachment :=
  if PyStr.truthy (_normalize_reference (tx_reference transaction))
  then find (fun att => _reference_match transaction att) attachments
  else None.

(** Phase 2: the amount-matched candidates with their score and distance. *)
Definition amt_candidates (transaction : Transaction) (tx_date : Z)
           (attachments : list Attachment) : list (cand Attachment) :=
  flat_map
    (fun att =>
       if negb (_is_amount_match transaction att) then []
       else
         let dist := _date_distance_days tx_date att in
         let name_sim := _best_name_similarity (tx_contact transaction) att in
         [(att, composite_score name_sim dist, dist)])
    attachments.

(** Phase 3: the acceptance rules. *)
Definition accept_attachment (transaction : Transaction)
           (amt_candidates : list (cand Attachment)) : option Attachment :=
  if is_empty amt_candidates then None
  else
    let contact_present := PyStr.truthy (tx_contact transaction) in
    if contact_present then
      let filtered :=
        filter (fun c => Qle_bool (1 # 2)
                           (_best_name_similarity (tx_contact transaction) (c_rec c)))
               amt_candidates in
      if negb (is_empty filtered) then _select_best filtered else None
    else
      let exact_date := filter (fun c => c_dist c =? 0) amt_candidates in
      if Nat.eqb (List.length exact_date) 1 then option_map c_rec (hd_error exact_date)
      else if negb (is_empty exact_date) then
        let best := _select_best exact_date in
        let top_score :=
          filter (fun c => Qltb (Qabs (c_score c - (1 + 0 + 1))) eps) exact_date in
        if Nat.eqb (List.length top_score) 1 then best else None
      else None.

Definition find_attachment (transaction : Transaction)
           (attachments : list Attachment) : option Attachment :=
  match attachment_by_reference transaction attachments with
  | Some att => Some att
  | None =>
      match _parse_date (tx_date transaction) with
      | None => None
      | Some tx_date =>
          accept_attachment transaction (amt_candidates transaction tx_date attachments)
      end
  end.

(** ** [find_transaction] *)

Definition transaction_by_reference (attachment : Attachment)
           (transactions : list Transaction) : option Transaction :=
  if PyStr.truthy (_normalize_reference (reference (get_data attachment)))
  then find (fun tx => _reference_match tx attachment) transactions
  else None.

(** The candidates: amount-matched transactions that have a date. *)
Definition candidates (attachment : Attachment)
           (transactions : list Transaction) : list (cand Transaction) :=
  flat_map
    (fun tx =>
       if negb (_is_amount_match tx attachment) then []
       else
         match _parse_date (tx_date tx) with
         | None => []
         | Some tx_date =>
             let dist := _date_distance_days tx_date attachment in
             let name_sim :=
               if PyStr.truthy (tx_contact tx)
               then max_similarity (tx_contact tx) (_attachment_names attachment)
               else 0%Q in
             [(tx, composite_score name_sim dist, dist)]
         end)
    transactions.

(** The fallback: exactly one candidate on the very day. *)
Definition same_day_unique {R : Type} (candidates : list (cand R)) : option R :=
  let exact_date := filter (fun c => c_dist c =? 0) candidates in
  if Nat.eqb (List.length exact_date) 1 then option_map c_rec (hd_error exact_date)
  else None.

Definition accept_transaction (attachment : Attachment)
           (candidates : list (cand Transaction)) : option Transaction :=
  if is_empty candidates then None
  else
    let has_names := negb (is_empty (_attachment_names attachment)) in
    let with_contact := filter (fun c => PyStr.truthy (tx_contact (c_rec c))) candidates in
    if has_names && negb (is_empty with_contact) then
      let filtered := filter (fun c => Qle_bool (3 # 2) (c_score c)) with_contact in
      if negb (is_empty filtered) then select_first tx_id filtered
      else same_day_unique candidates
    else same_day_unique candidates.

Definition find_transaction (attachment : Attachment)
           (transactions : list Transaction) : option Transaction :=
  match transaction_by_reference attachment transactions with
  | Some tx => Some tx
  | None => accept_transaction attachment (candidates attachment transactions)
  end.

(** ** Sample records *)

Module Sample.

Definition data (amount : Q) (ref name due : option string) : AttachmentData :=
  mkData name None None (Some amount) ref due None None.

Definition att (id : Z) (amount : Q) (ref name due : option string) : Attachment :=
  mkAttachment id (Some (data amount ref name due)).

Definition tx (id : Z) (amount : Q) (date ref contact : option string) : Transaction :=
  mkTransaction id (Some amount) date ref contact.

End Sample.

(** ** The normalizer as the specification words it *)

Fixpoint drop_zeros (l : list ascii) : list ascii :=
  match l with
  | c :: t => if (c =? "0")%char then drop_zeros t else l
  | [] => []
  end.

(** Remove the characters of the class [strip], uppercase, and when only
    decimal digits remain drop the leading zeros, keeping one zero when
    nothing else is left. The specification's class is all white space. *)
Definition normalizeReference (strip : ascii -> bool) (ref : option string)
  : option string :=
  match ref with
  | None => None
  | Some EmptyString => None
  | Some r =>
      let kept := filter (fun c => negb (strip c)) (list_ascii_of_string r) in
      let cleaned := List.map PyStr.upper_char kept in
      if negb (is_empty cleaned) && List.forallb PyStr.is_digit cleaned
      then
        match drop_zeros cleaned with
        | [] => Some "0"
        | l => Some (string_of_list_ascii l)
        end
      else Some (string_of_list_ascii cleaned)
  end.

Definition only_space (c : ascii) : bool := (c =? " ")%char.

Definition tab : ascii := ascii_of_nat 9.

(** A character of a normalized reference: no space, no lowercase letter. *)
Definition clean_char (c : ascii) : bool :=
  negb (only_space c) && negb (PyStr.is_lower c).

(** ** Sample records of the properties below *)

Module RefSample.

Definition tx : Transaction :=
  Sample.tx 2001 (-250) (Some "2024-03-01") (Some "123") (Some "Acme Oy").
Definition first : Attachment :=
  Sample.att 3001 999 (Some "0123") (Some "Other Ltd") (Some "2020-01-01").
Definition second : Attachment :=
  Sample.att 3002 250 (Some "123 ") (Some "Acme Oy") (Some "2024-03-01").

End RefSample.


(** ** The candidate lists, record by record *)

(** The tuple [find_attachment] appends for an amount-matched attachment. *)
Definition att_cand (transaction : Transaction) (tx_date : Z) (att : Attachment)
  : cand Attachment :=
  let dist := _date_distance_days tx_date att in
  (att, composite_score (_best_name_similarity (tx_contact transaction) att) dist, dist).

(** The tuple [find_transaction] appends for an amount-matched transaction
    whose date is [tx_date]. *)
Definition tx_cand (attachment : Attachment) (tx : Transaction) (tx_date : Z)
  : cand Transaction :=
  let dist := _date_distance_days tx_date attachment in
  (tx, composite_score (_best_name_similarity (tx_contact tx) attachment) dist, dist).

(** A score within [1e-6] of the amount-and-date value [1 + 0 + 1]. *)
Definition near_two (score : Q) : bool := Qltb (Qabs (score - (1 + 0 + 1))) eps.

(** The amount-matched attachments on the very day [tx_date]. *)
Definition exact_date_matches (transaction : Transaction) (tx_date : Z)
           (attachments : list Attachment) : list Attachment :=
  filter (fun a => _is_amount_match transaction a
                   && (_date_distance_days tx_date a =? 0)) attachments.

Module DaySample.

Definition tx : Transaction :=
  Sample.tx 2004 (-500) (Some "2024-01-10") None None.
Definition a1 : Attachment :=
  Sample.att 3004 500 None (Some "Acme Oy") (Some "2024-01-10").
Definition a2 : Attachment :=
  Sample.att 3005 500 None (Some "Other Ltd") (Some "2024-01-10").
Definition a3 : Attachment :=
  Sample.att 3006 500 None (Some "Third Inc") (Some "2024-01-12").

End DaySample.

(** ** The ranking order, as the specification words it *)

Section RankingOrder.

Context {R : Type} (id : R -> Z).

(** [a] ranks strictly before [b]: a higher score, or the same score and
    a smaller date distance, or both the same and a smaller id. *)
Definition ranks_before (a b : cand R) : Prop :=
  (c_score b < c_score a)%Q \/
  ((c_score a == c_score b)%Q /\
   (c_dist a < c_dist b \/
    (c_dist a = c_dist b /\ id (c_rec a) < id (c_rec b)))).

(** [a] ranks before [b] or ties with it on all three components. *)
Definition ranks_no_later (a b : cand R) : Prop :=
  (c_score b < c_score a)%Q \/
  ((c_score a == c_score b)%Q /\
   (c_dist a < c_dist b \/
    (c_dist a = c_dist b /\ id (c_rec a) <= id (c_rec b)))).


End RankingOrder.

(** The amount-matched attachments whose name similarity to the contact of
    the transaction reaches the threshold [0.5]. *)
Definition name_matches (transaction : Transaction) (attachments : list Attachment)
  : list Attachment :=
  filter (fun a => _is_amount_match transaction a
                   && Qle_bool (1 # 2) (_best_name_similarity (tx_contact transaction) a))
         attachments.

Module RankSample.

Definition r (id : Z) : Attachment := mkAttachment id None.
Definition c1 : cand Attachment := (r 7, 2 # 1, 0).
Definition c2 : cand Attachment := (r 5, 5 # 2, 3).
Definition c3 : cand Attachment := (r 3, 10 # 4, 3).

End RankSample.

Module NameSample.

Definition tx : Transaction :=
  Sample.tx 2005 (-120) (Some "2024-02-01") None (Some "Acme Corp").
(** similarity 1/2, ten days away *)
Definition half : Attachment :=
  Sample.att 3005 120 None (Some "Acme Oy") (Some "2024-02-11").
(** similarity 1/3, same day *)
Definition third : Attachment :=
  Sample.att 3006 120 None (Some "Acme Trading Ltd") (Some "2024-02-01").
(** similarity 1, forty days away *)
Definition full : Attachment :=
  Sample.att 3007 120 None (Some "ACME CORP OY") (Some "2024-03-12").

End NameSample.

Module TxSample.

Definition att : Attachment :=
  Sample.att 3003 500 None (Some "Acme Oy") (Some "2024-01-10").
(** contact equal to the supplier, fifteen days late: score 5/2 *)
Definition named : Transaction :=
  Sample.tx 2003 (-500) (Some "2024-01-25") None (Some "Acme").
(** no contact, on the very day: score 2 *)
Definition same_day : Transaction :=
  Sample.tx 2004 500 (Some "2024-01-10") None None.
(** amount match without a usable date *)
Definition undated : Transaction :=
  Sample.tx 2005 500 (Some "10.1.2024") None (Some "Acme").
(** an attachment that names no counterparty *)
Definition anonymous : Attachment :=
  Sample.att 3004 500 None (Some "Example Company Oy") (Some "2024-01-10").

End TxSample.

Module BareSample.

(** records with nothing but an id *)
Definition tx : Transaction := mkTransaction 1 None None None None.
Definition att : Attachment := mkAttachment 2 None.
(** an attachment whose dates do not parse *)
Definition undated : Attachment :=
  mkAttachment 3 (Some (mkData (Some EmptyString) None None (Some 500%Q) (Some EmptyString)
                               (Some "2024-13-01") (Some "yesterday") (Some EmptyString))).

End BareSample.

(** ** Definitions of the further properties *)

(** A reference made of space characters only. *)
Definition all_spaces (s : string) : bool := PyStr.forallb only_space s.

(** A character of a token after lowercasing: a lowercase letter or a digit. *)
Definition lower_alnum (c : ascii) : bool := PyStr.is_lower c || PyStr.is_digit c.

(** [x] is one of the dates of the attachment that parse. *)
Definition has_date (att : Attachment) (x : Z) : Prop :=
  _parse_date (due_date (get_data att)) = Some x \/
  _parse_date (invoicing_date (get_data att)) = Some x \/
  _parse_date (receiving_date (get_data att)) = Some x.


(** The transaction, and the attachment, with the reference taken away. *)
Definition without_reference (tx : Transaction) : Transaction :=
  mkTransaction (tx_id tx) (tx_amount tx) (tx_date tx) None (tx_contact tx).

Definition att_without_reference (att : Attachment) : Attachment :=
  let d := get_data att in
  mkAttachment (att_id att)
    (Some (mkData (supplier d) (issuer d) (recipient d) (total_amount d) None
                  (due_date d) (invoicing_date d) (receiving_date d))).

(** Two records with the same id, and candidates that tie on every key. *)
Module TieSample.

Definition r1 : Attachment := mkAttachment 5 None.
Definition r2 : Attachment := mkAttachment 5 (Some empty_data).
Definition c1 : cand Attachment := (r1, 2 # 1, 0).
Definition c2 : cand Attachment := (r2, 4 # 2, 0).
Definition c3 : cand Attachment := (mkAttachment 1 None, 3 # 2, 0).

End TieSample.

Module NearSample.

Definition att : Attachment :=
  Sample.att 3010 80 None (Some "Northwind Traders") (Some "2024-05-20").
(** a contact that shares no token with the supplier, fifteen days before *)
Definition tx : Transaction :=
  Sample.tx 2010 (-80) (Some "2024-05-05") None (Some "Contoso").
(** neither the amount nor a reference in common with the attachment *)
Definition other : Transaction :=
  Sample.tx 2011 (-81) (Some "2024-05-20") (Some "77") (Some "Northwind Traders").

End NearSample.

(** The zero-padded text [YYYY-MM-DD] of a date. *)
Definition digit_char (k : Z) : ascii := ascii_of_N (48 + Z.to_N k).

Definition two_digits (n : Z) : string :=
  String (digit_char (n / 10)) (String (digit_char (n mod 10)) EmptyString).

Definition iso_date (y m d : Z) : string :=
  String (digit_char (y / 1000))
    (String (digit_char (y / 100 mod 10))
       (String (digit_char (y / 10 mod 10))
          (String (digit_char (y mod 10))
             (String "-" (two_digits m ++ String "-" (two_digits d))%string)))).

(** A day of the calendar the [datetime] type can hold. *)
Definition valid_day (y m d : Z) : Prop :=
  1 <= y <= 9999 /\ 1 <= m <= 12 /\ 1 <= d <= PyDate.days_in_month y m.

(** The calendar day that follows [y-m-d]. *)
Definition next_day (y m d : Z) : Z * Z * Z :=
  if d <? PyDate.days_in_month y m then (y, m, d + 1)
  else if m <? 12 then (y, m + 1, 1)
  else (y + 1, 1, 1).
(** * Properties *)

Example parse_date_2024_01_10 : _parse_date (Some "2024-01-10") = Some 738895.
Proof. reflexivity. Qed.

Example normalize_00123 : _normalize_reference (Some "00123") = Some "123".
Proof. reflexivity. Qed.

(** [strptime] on a few inputs: one-digit fields and a space-padded day are
    read, a day past the end of the month, a thirteenth month, the year
    zero and trailing text are refused. *)
Example parse_date_short_fields : _parse_date (Some "2024-1- 5") = Some 738890.
Proof. reflexivity. Qed.

Example parse_date_october : _parse_date (Some "2024-10-1") = Some 739160.
Proof. reflexivity. Qed.

Example parse_date_leap_day : _parse_date (Some "2024-02-29") = Some 738945.
Proof. reflexivity. Qed.

Example parse_date_refused :
  List.map (fun v => _parse_date (Some v))
           ["2024-02-30"; "2023-02-29"; "0000-02-29"; "2024-01-32"; "2024-13-01";
            "2024-01-10 "; " 2024-01-10"; "2024-100-1"; "20240110"; "10.1.2024"]
  = repeat None 10.
Proof. reflexivity. Qed.

Example tokenize_sample :
  _tokenize (Some "Foo-bar OY, foo  Ltd.") = ["bar"; "foo"].
Proof. reflexivity. Qed.

Example name_similarity_half :
  _name_similarity (Some "Acme Corp Oy") (Some "ACME") = 1 # 2.
Proof. reflexivity. Qed.

(** ** Text primitives *)

Lemma remove_spaces_filter (s : string) :
  PyStr.remove_spaces s =
  string_of_list_ascii (filter (fun c => negb (only_space c)) (list_ascii_of_string s)).
Proof.
  induction s as [|c r IH]; simpl; [reflexivity|].
  unfold only_space at 1. destruct (c =? " ")%char; simpl; now rewrite IH.
Qed.

Lemma map_list_ascii (f : ascii -> ascii) (l : list ascii) :
  PyStr.map f (string_of_list_ascii l) = string_of_list_ascii (List.map f l).
Proof. induction l as [|c r IH]; simpl; [reflexivity|now rewrite IH]. Qed.

Lemma forallb_list_ascii (p : ascii -> bool) (l : list ascii) :
  PyStr.forallb p (string_of_list_ascii l) = List.forallb p l.
Proof. induction l as [|c r IH]; simpl; [reflexivity|now rewrite IH]. Qed.

Lemma isdigit_list_ascii (l : list ascii) :
  PyStr.isdigit (string_of_list_ascii l) =
  negb (is_empty l) && List.forallb PyStr.is_digit l.
Proof.
  destruct l as [|c r]; [reflexivity|].
  change (PyStr.isdigit (string_of_list_ascii (c :: r)))
    with (PyStr.forallb PyStr.is_digit (string_of_list_ascii (c :: r))).
  now rewrite forallb_list_ascii.
Qed.

Lemma lstrip_zeros_list_ascii (l : list ascii) :
  PyStr.lstrip_zeros (string_of_list_ascii l) = string_of_list_ascii (drop_zeros l).
Proof.
  induction l as [|c r IH]; simpl; [reflexivity|].
  destruct (c =? "0")%char; [exact IH|reflexivity].
Qed.

(** ** C5: the reference normalizer *)

(** The source removes the space character only. *)
Lemma normalize_reference_refines (ref : option string) :
  _normalize_reference ref = normalizeReference only_space ref.
Proof.
  destruct ref as [[|c r]|]; try reflexivity.
  unfold _normalize_reference, normalizeReference.
  change (negb (PyStr.truthy (Some (String c r)))) with false. cbv iota.
  cbv zeta. rewrite remove_spaces_filter. unfold PyStr.upper.
  rewrite map_list_ascii, isdigit_list_ascii.
  set (cl := List.map PyStr.upper_char _).
  destruct (negb (is_empty cl) && List.forallb PyStr.is_digit cl); [|reflexivity].
  rewrite lstrip_zeros_list_ascii. now destruct (drop_zeros cl).
Qed.

Lemma upper_char_clean (c : ascii) :
  only_space c = false -> clean_char (PyStr.upper_char c) = true.
Proof.
  destruct c as [[] [] [] [] [] [] [] []]; intros H;
    solve [reflexivity | discriminate H].
Qed.

Lemma cleaned_clean (l : list ascii) :
  List.forallb clean_char
    (List.map PyStr.upper_char (filter (fun c => negb (only_space c)) l)) = true.
Proof.
  induction l as [|c r IH]; simpl; [reflexivity|].
  destruct (only_space c) eqn:E; simpl; [exact IH|].
  now rewrite upper_char_clean, IH.
Qed.

Lemma drop_zeros_forallb (p : ascii -> bool) (l : list ascii) :
  List.forallb p l = true -> List.forallb p (drop_zeros l) = true.
Proof.
  induction l as [|c r IH]; simpl; [reflexivity|].
  intros H. apply andb_prop in H as [Hc Hr].
  destruct (c =? "0")%char; [now apply IH|simpl; now rewrite Hc, Hr].
Qed.

Lemma drop_zeros_head (l : list ascii) :
  match drop_zeros l with
  | [] => True
  | c :: _ => c <> "0"%char
  end.
Proof.
  induction l as [|c r IH]; simpl; [exact I|].
  destruct (c =? "0")%char eqn:E; [exact IH|].
  now apply Ascii.eqb_neq.
Qed.

Lemma normalize_reference_clean (ref : option string) (out : string) :
  _normalize_reference ref = Some out ->
  PyStr.forallb clean_char out = true /\
  (PyStr.isdigit out = true ->
   out = "0" \/ exists c t, out = String c t /\ c <> "0"%char).
Proof.
  rewrite normalize_reference_refines.
  destruct ref as [[|c0 r]|]; try discriminate.
  unfold normalizeReference.
  set (cl := List.map PyStr.upper_char _).
  assert (Hcl : List.forallb clean_char cl = true) by apply cleaned_clean.
  destruct (negb (is_empty cl) && List.forallb PyStr.is_digit cl) eqn:E.
  - pose proof (drop_zeros_forallb clean_char cl Hcl) as Hd.
    rewrite <- forallb_list_ascii in Hd.
    pose proof (drop_zeros_head cl) as Hh.
    destruct (drop_zeros cl) as [|c t] eqn:D; intros [= <-].
    + split; [reflexivity|now left].
    + split; [exact Hd|].
      intros _. right. exists c, (string_of_list_ascii t). now split.
  - intros [= <-]. split; [now rewrite forallb_list_ascii|].
    rewrite isdigit_list_ascii, E. discriminate.
Qed.

Lemma filter_ext_in_bool {A : Type} (f g : A -> bool) (l : list A) :
  (forall x, In x l -> f x = g x) -> filter f l = filter g l.
Proof.
  induction l as [|x r IH]; simpl; intros H; [reflexivity|].
  rewrite (H x) by now left. rewrite IH by (intros; apply H; now right).
  reflexivity.
Qed.

(** On references whose only white space is the space character the source
    and the specification's wording agree. *)
Lemma normalize_reference_agrees (r : string) :
  (forall c, In c (list_ascii_of_string r) -> PyStr.is_space c = true -> c = " "%char) ->
  _normalize_reference (Some r) = normalizeReference PyStr.is_space (Some r).
Proof.
  intros H. rewrite normalize_reference_refines.
  destruct r as [|c0 r]; [reflexivity|].
  unfold normalizeReference.
  rewrite (filter_ext_in_bool (fun c => negb (only_space c))
                              (fun c => negb (PyStr.is_space c))); [reflexivity|].
  intros c Hc. f_equal. unfold only_space.
  destruct (PyStr.is_space c) eqn:E.
  - rewrite (H c Hc E). reflexivity.
  - destruct (c =? " ")%char eqn:E'; [|reflexivity].
    apply Ascii.eqb_eq in E'. subst c. discriminate E.
Qed.

(** C5 (as the specification states it): every white-space character is
    removed. The source keeps a tab: the reference [1<TAB>2] is returned
    unchanged, whereas removing all white space gives [12]. *)
Lemma normalize_reference_keeps_tab :
  normalizeReference PyStr.is_space (Some (String "1" (String tab "2"))) = Some "12" /\
  _normalize_reference (Some (String "1" (String tab "2")))
  = Some (String "1" (String tab "2")) /\
  _normalize_reference (Some (String "1" (String tab "2")))
  <> normalizeReference PyStr.is_space (Some (String "1" (String tab "2"))).
Proof. repeat split; try reflexivity. discriminate. Qed.

(** C5 (amended): [_normalize_reference] returns [None] for a missing or
    empty reference; otherwise it removes every space character (and no
    other white space), uppercases, and when only decimal digits remain
    strips the leading zeros, an all-zero reference collapsing to ["0"].
    The result holds no space and no lowercase letter, a numeric result has
    no leading zero, ["00123"] normalizes to ["123"], and ["123"] and
    ["123 "] normalize to the same string. *)
Theorem normalize_reference_spec :
  _normalize_reference None = None /\
  _normalize_reference (Some EmptyString) = None /\
  (forall ref, _normalize_reference ref = normalizeReference only_space ref) /\
  (forall r, r <> EmptyString -> exists out, _normalize_reference (Some r) = Some out) /\
  (forall ref out, _normalize_reference ref = Some out ->
     PyStr.forallb clean_char out = true /\
     (PyStr.isdigit out = true ->
      out = "0" \/ exists c t, out = String c t /\ c <> "0"%char)) /\
  (forall r,
     (forall c, In c (list_ascii_of_string r) -> PyStr.is_space c = true -> c = " "%char) ->
     _normalize_reference (Some r) = normalizeReference PyStr.is_space (Some r)) /\
  _normalize_reference (Some "00123") = Some "123" /\
  _normalize_reference (Some "000") = Some "0" /\
  _normalize_reference (Some "rf 18 ab") = Some "RF18AB" /\
  _normalize_reference (Some "123") = _normalize_reference (Some "123 ").
Proof.
  split; [reflexivity|]. split; [reflexivity|].
  split; [exact normalize_reference_refines|].
  split.
  { intros [|c r] H; [now elim H|].
    unfold _normalize_reference.
    change (negb (PyStr.truthy (Some (String c r)))) with false. cbv iota zeta.
    destruct (PyStr.isdigit _); eexists; reflexivity. }
  split; [exact normalize_reference_clean|].
  split; [exact normalize_reference_agrees|].
  repeat split; reflexivity.
Qed.

(** The amended statement at the reference [" 007 "]. *)
Lemma normalize_reference_spec_witness :
  _normalize_reference (Some " 007 ") = Some "7" /\
  PyStr.forallb clean_char "7" = true /\
  _normalize_reference (Some " 007 ") = normalizeReference PyStr.is_space (Some " 007 ").
Proof.
  destruct normalize_reference_spec as (_ & _ & _ & _ & Hc & Ha & _).
  split; [reflexivity|]. split.
  - exact (proj1 (Hc (Some " 007 ") "7" eq_refl)).
  - apply Ha. intros c Hc' Hs. simpl in Hc'.
    repeat (destruct Hc' as [<-|Hc']; [reflexivity || discriminate Hs|]).
    destruct Hc'.
Defined.

(** ** Lists: the first element that satisfies a test *)

Section Find.

Context {A : Type} (f : A -> bool).

Lemma find_app_first (l1 l2 : list A) (x : A) :
  (forall y, In y l1 -> f y = false) -> f x = true ->
  find f (l1 ++ x :: l2) = Some x.
Proof.
  intros H Hx. induction l1 as [|y l1 IH]; simpl.
  - now rewrite Hx.
  - rewrite (H y) by now left. apply IH. intros z Hz. apply H. now right.
Qed.

Lemma find_split (l : list A) (x : A) :
  find f l = Some x ->
  exists l1 l2, l = l1 ++ x :: l2 /\ f x = true /\ forall y, In y l1 -> f y = false.
Proof.
  induction l as [|y l IH]; simpl; [discriminate|].
  destruct (f y) eqn:E.
  - intros [= ->]. exists [], l. repeat split; [exact E|intros ? []].
  - intros H. destruct (IH H) as (l1 & l2 & -> & Hx & Hl1).
    exists (y :: l1), l2. repeat split; [exact Hx|].
    intros z [<-|Hz]; [exact E|now apply Hl1].
Qed.

Lemma find_exists (l : list A) (x : A) :
  In x l -> f x = true -> exists y, find f l = Some y.
Proof.
  intros Hin Hx. destruct (find f l) as [y|] eqn:E; [now exists y|].
  now rewrite (find_none f l E x Hin) in Hx.
Qed.

End Find.

(** ** C1: reference primacy *)

Lemma truthy_nonempty (r : string) : r <> EmptyString -> PyStr.truthy (Some r) = true.
Proof. destruct r; [intros H; now elim H|reflexivity]. Qed.

Lemma opt_eqb_some (r : string) (o : option string) :
  opt_eqb (Some r) o = true <-> o = Some r.
Proof.
  destruct o as [s|]; simpl; [|split; discriminate].
  rewrite String.eqb_eq. split; [now intros ->|now intros [= ->]].
Qed.

Lemma opt_eqb_sym (a b : option string) : opt_eqb a b = opt_eqb b a.
Proof. destruct a, b; simpl; try reflexivity. apply String.eqb_sym. Qed.

Lemma not_true_false (b : bool) : b <> true -> b = false.
Proof. now destruct b. Qed.

(** With a non-empty normalized reference on the transaction, the result
    is the first attachment of the list with that normalized reference. *)
Lemma find_attachment_by_reference (tx : Transaction) (r : string)
      (before after : list Attachment) (first : Attachment) :
  _normalize_reference (tx_reference tx) = Some r -> r <> EmptyString ->
  _normalize_reference (reference (get_data first)) = Some r ->
  (forall a, In a before -> _normalize_reference (reference (get_data a)) <> Some r) ->
  find_attachment tx (before ++ first :: after) = Some first.
Proof.
  intros Htx Hr Hf Hb. unfold find_attachment, attachment_by_reference.
  rewrite Htx, (truthy_nonempty r Hr).
  rewrite (find_app_first _ before after first); [reflexivity| |].
  - intros a Ha. unfold _reference_match. rewrite Htx.
    apply not_true_false. rewrite opt_eqb_some. now apply Hb.
  - unfold _reference_match. rewrite Htx. now apply opt_eqb_some.
Qed.

Lemma find_transaction_by_reference (att : Attachment) (r : string)
      (before after : list Transaction) (first : Transaction) :
  _normalize_reference (reference (get_data att)) = Some r -> r <> EmptyString ->
  _normalize_reference (tx_reference first) = Some r ->
  (forall t, In t before -> _normalize_reference (tx_reference t) <> Some r) ->
  find_transaction att (before ++ first :: after) = Some first.
Proof.
  intros Hatt Hr Hf Hb. unfold find_transaction, transaction_by_reference.
  rewrite Hatt, (truthy_nonempty r Hr).
  rewrite (find_app_first _ before after first); [reflexivity| |].
  - intros t Ht. unfold _reference_match. rewrite Hatt, opt_eqb_sym.
    apply not_true_false. rewrite opt_eqb_some. now apply Hb.
  - unfold _reference_match. rewrite Hatt, opt_eqb_sym. now apply opt_eqb_some.
Qed.

(** C1 (as the specification states it): every pair with equal non-empty
    normalized references is returned. Two attachments of one list carry
    the reference of the transaction; the scan returns the first, so the
    pair made of the transaction and the second one is not returned, though
    the second one also agrees on amount, date and name. *)
Lemma reference_primacy_first_only :
  In RefSample.second [RefSample.first; RefSample.second] /\
  _normalize_reference (tx_reference RefSample.tx) = Some "123" /\
  _normalize_reference (reference (get_data RefSample.second)) = Some "123" /\
  find_attachment RefSample.tx [RefSample.first; RefSample.second]
  = Some RefSample.first /\
  find_attachment RefSample.tx [RefSample.first; RefSample.second]
  <> Some RefSample.second.
Proof.
  split; [right; now left|]. repeat split; try reflexivity.
  vm_compute. discriminate.
Qed.

(** C1 (amended): when the references of a transaction and of an attachment
    of the list normalize to the same non-empty string, [find_attachment]
    returns the first attachment in input order whose normalized reference
    equals the transaction's, which is that attachment when none before it
    carries the reference; [find_transaction] does the same over the
    transactions. Amounts, dates and names play no part. *)
Theorem reference_primacy (tx : Transaction) (att : Attachment) (r : string)
        (Htx : _normalize_reference (tx_reference tx) = Some r)
        (Hatt : _normalize_reference (reference (get_data att)) = Some r)
        (Hr : r <> EmptyString) :
  (forall atts, In att atts ->
     exists before first after,
       atts = before ++ first :: after /\
       find_attachment tx atts = Some first /\
       _normalize_reference (reference (get_data first)) = Some r /\
       forall a, In a before ->
                 _normalize_reference (reference (get_data a)) <> Some r) /\
  (forall before after,
     (forall a, In a before ->
                _normalize_reference (reference (get_data a)) <> Some r) ->
     find_attachment tx (before ++ att :: after) = Some att) /\
  (forall txs, In tx txs ->
     exists before first after,
       txs = before ++ first :: after /\
       find_transaction att txs = Some first /\
       _normalize_reference (tx_reference first) = Some r /\
       forall t, In t before -> _normalize_reference (tx_reference t) <> Some r) /\
  (forall before after,
     (forall t, In t before -> _normalize_reference (tx_reference t) <> Some r) ->
     find_transaction att (before ++ tx :: after) = Some tx).
Proof.
  split; [|split; [|split]].
  - intros atts Hin.
    destruct (find_exists (fun a => _reference_match tx a) atts att Hin) as [x Hx].
    { unfold _reference_match. rewrite Htx. now apply opt_eqb_some. }
    destruct (find_split _ atts x Hx) as (l1 & l2 & -> & Hm & Hl1).
    unfold _reference_match in Hm. rewrite Htx in Hm. apply opt_eqb_some in Hm.
    assert (Hb : forall a, In a l1 ->
                 _normalize_reference (reference (get_data a)) <> Some r).
    { intros a Ha Heq. specialize (Hl1 a Ha). unfold _reference_match in Hl1.
      rewrite Htx in Hl1. apply opt_eqb_some in Heq. congruence. }
    exists l1, x, l2. repeat split; try assumption.
    now apply (find_attachment_by_reference tx r).
  - intros before after Hb. now apply (find_attachment_by_reference tx r).
  - intros txs Hin.
    destruct (find_exists (fun t => _reference_match t att) txs tx Hin) as [x Hx].
    { unfold _reference_match. rewrite Htx. now apply opt_eqb_some. }
    destruct (find_split _ txs x Hx) as (l1 & l2 & -> & Hm & Hl1).
    unfold _reference_match in Hm. rewrite Hatt, opt_eqb_sym in Hm.
    apply opt_eqb_some in Hm.
    assert (Hb : forall t, In t l1 -> _normalize_reference (tx_reference t) <> Some r).
    { intros t Ht Heq. specialize (Hl1 t Ht). unfold _reference_match in Hl1.
      rewrite Hatt, opt_eqb_sym in Hl1. apply opt_eqb_some in Heq. congruence. }
    exists l1, x, l2. repeat split; try assumption.
    now apply (find_transaction_by_reference att r).
  - intros before after Hb. now apply (find_transaction_by_reference att r).
Qed.

(** The amended statement on the sample records: the second attachment is
    returned as soon as the first one is not in front of it. *)
Lemma reference_primacy_witness :
  find_attachment RefSample.tx [RefSample.second; RefSample.first]
  = Some RefSample.second /\
  find_transaction RefSample.second [RefSample.tx] = Some RefSample.tx.
Proof.
  assert (Hr : "123" <> EmptyString) by discriminate.
  destruct (reference_primacy RefSample.tx RefSample.second "123"
              eq_refl eq_refl Hr) as (_ & Ha & _ & Ht).
  split.
  - apply (Ha [] [RefSample.first]). intros a [].
  - apply (Ht [] []). intros t [].
Defined.

(** ** Rational comparisons *)

Lemma Qltb_lt (a b : Q) : Qltb a b = true <-> (a < b)%Q.
Proof.
  unfold Qltb. rewrite negb_true_iff. split.
  - intros H. apply Qnot_le_lt. intros Hle.
    apply Qle_bool_iff in Hle. congruence.
  - intros H. apply not_true_false. rewrite Qle_bool_iff.
    now apply Qlt_not_le.
Qed.

Lemma Qltb_ge (a b : Q) : Qltb a b = false <-> (b <= a)%Q.
Proof.
  unfold Qltb. rewrite negb_false_iff. apply Qle_bool_iff.
Qed.


Lemma Qnat_pos (n : nat) : (0 < n)%nat -> (0 < Qnat n)%Q.
Proof. intros H. unfold Qnat, Qlt. simpl. lia. Qed.


(** ** Name similarity *)

Lemma tokenize_NoDup (name : option string) : NoDup (_tokenize name).
Proof.
  unfold _tokenize. destruct (negb (PyStr.truthy name)); [constructor|].
  destruct name as [n|]; [|constructor].
  apply NoDup_filter, NoDup_nodup.
Qed.

Lemma inter_le_union (a b : list string) :
  NoDup a -> (List.length (set_inter a b) <= List.length (set_union a b))%nat.
Proof.
  intros Ha. apply NoDup_incl_length.
  - now apply NoDup_filter.
  - intros t Ht. apply filter_In in Ht as [Ht _].
    apply nodup_In, in_or_app. now left.
Qed.





(** Without a contact there is no name evidence at all. *)
Lemma best_name_similarity_no_contact (contact : option string) (att : Attachment) :
  PyStr.truthy contact = false -> _best_name_similarity contact att = 0%Q.
Proof. intros H. unfold _best_name_similarity. now rewrite H. Qed.

(** ** Date distance and date bonus *)

Lemma list_min_lower (l : list Z) (x b : Z) :
  b <= x -> Forall (fun y => b <= y) l -> b <= list_min x l.
Proof.
  unfold list_min. revert x. induction l as [|y l IH]; intros x Hx Hl; simpl; [exact Hx|].
  inversion Hl; subst. apply IH; [lia|assumption].
Qed.

Lemma date_distance_nonneg (d : Z) (att : Attachment) : 0 <= _date_distance_days d att.
Proof.
  unfold _date_distance_days.
  set (ds := List.map _ _).
  assert (H : Forall (fun y => 0 <= y) ds).
  { apply Forall_forall. intros y Hy. apply in_map_iff in Hy as (x & <- & _). lia. }
  destruct ds as [|x r]; [unfold sentinel; lia|].
  inversion H; subst. now apply list_min_lower.
Qed.



Lemma date_bonus_far (dist : Z) : 30 < dist -> date_bonus dist = 0%Q.
Proof.
  intros H. unfold date_bonus. destruct (dist <=? 30) eqn:E; [|reflexivity].
  apply Z.leb_le in E. lia.
Qed.


(** ** The candidate lists *)

Lemma amt_candidates_map (tx : Transaction) (d : Z) (atts : list Attachment) :
  amt_candidates tx d atts
  = List.map (att_cand tx d) (filter (_is_amount_match tx) atts).
Proof.
  induction atts as [|a atts IH]; simpl; [reflexivity|].
  destruct (_is_amount_match tx a); simpl; now rewrite <- IH.
Qed.

Lemma filter_map_comm {A B : Type} (f : A -> B) (p : B -> bool) (l : list A) :
  filter p (List.map f l) = List.map f (filter (fun x => p (f x)) l).
Proof.
  induction l as [|x l IH]; simpl; [reflexivity|].
  destruct (p (f x)); simpl; now rewrite IH.
Qed.

Lemma filter_filter {A : Type} (p q : A -> bool) (l : list A) :
  filter p (filter q l) = filter (fun x => q x && p x) l.
Proof.
  induction l as [|x l IH]; simpl; [reflexivity|].
  destruct (q x); simpl; [destruct (p x)|]; now rewrite IH.
Qed.

Lemma amt_candidates_in (tx : Transaction) (d : Z) (atts : list Attachment)
      (c : cand Attachment) :
  In c (amt_candidates tx d atts) <->
  exists a, In a atts /\ _is_amount_match tx a = true /\ c = att_cand tx d a.
Proof.
  rewrite amt_candidates_map, in_map_iff. split.
  - intros (a & <- & Ha). apply filter_In in Ha as [Ha Hm]. now exists a.
  - intros (a & Ha & Hm & ->). exists a. split; [reflexivity|].
    apply filter_In. now split.
Qed.

(** The exact-date candidates are the tuples of the amount-matched
    attachments at distance zero, in input order. *)
Lemma exact_date_candidates (tx : Transaction) (d : Z) (atts : list Attachment) :
  filter (fun c => c_dist c =? 0) (amt_candidates tx d atts)
  = List.map (att_cand tx d)
      (filter (fun a => _is_amount_match tx a && (_date_distance_days d a =? 0)) atts).
Proof. now rewrite amt_candidates_map, filter_map_comm, filter_filter. Qed.

Lemma candidates_in (att : Attachment) (txs : list Transaction) (c : cand Transaction) :
  In c (candidates att txs) <->
  exists tx d, In tx txs /\ _is_amount_match tx att = true /\
               _parse_date (tx_date tx) = Some d /\ c = tx_cand att tx d.
Proof.
  unfold candidates. rewrite in_flat_map. split.
  - intros (tx & Hin & Hc). destruct (_is_amount_match tx att) eqn:Hm; [|destruct Hc].
    simpl in Hc. destruct (_parse_date (tx_date tx)) as [d|] eqn:Hd; [|destruct Hc].
    destruct Hc as [<-|[]]. exists tx, d. repeat split; try assumption.
    unfold tx_cand, _best_name_similarity.
    now destruct (PyStr.truthy (tx_contact tx)).
  - intros (tx & d & Hin & Hm & Hd & ->). exists tx. split; [exact Hin|].
    rewrite Hm, Hd. simpl. left. unfold tx_cand, _best_name_similarity.
    now destruct (PyStr.truthy (tx_contact tx)).
Qed.

(** ** The branch of [find_attachment] without a contact *)

Lemma no_contact_exact_score (tx : Transaction) (d : Z) (a : Attachment) :
  PyStr.truthy (tx_contact tx) = false ->
  _date_distance_days d a = 0 ->
  (c_score (att_cand tx d a) == 2)%Q.
Proof.
  intros Hc Hd. unfold att_cand, c_score. simpl.
  rewrite Hd, (best_name_similarity_no_contact _ a Hc). reflexivity.
Qed.

Lemma near_two_of_two (q : Q) : (q == 2)%Q -> near_two q = true.
Proof.
  intros H. unfold near_two. apply Qltb_lt.
  assert (H0 : (q - (1 + 0 + 1) == 0)%Q) by (rewrite H; reflexivity).
  rewrite H0. reflexivity.
Qed.

Lemma filter_all {A : Type} (p : A -> bool) (l : list A) :
  (forall x, In x l -> p x = true) -> filter p l = l.
Proof.
  induction l as [|x l IH]; intros H; simpl; [reflexivity|].
  rewrite (H x) by now left. f_equal. apply IH. intros y Hy. apply H. now right.
Qed.

(** What the no-contact branch computes, in terms of the exact-date list. *)
Lemma accept_attachment_no_contact (tx : Transaction) (cands : list (cand Attachment)) :
  PyStr.truthy (tx_contact tx) = false ->
  accept_attachment tx cands =
  let exact_date := filter (fun c => c_dist c =? 0) cands in
  match exact_date with
  | [] => None
  | [c] => Some (c_rec c)
  | _ => if Nat.eqb (List.length (filter (fun c => near_two (c_score c)) exact_date)) 1
         then _select_best exact_date else None
  end.
Proof.
  intros Hc. unfold accept_attachment. rewrite Hc.
  destruct cands as [|c0 cands]; [reflexivity|].
  change (is_empty (c0 :: cands)) with false. cbv iota zeta.
  destruct (filter _ (c0 :: cands)) as [|c [|c' r]]; reflexivity.
Qed.

Lemma find_attachment_scoring (tx : Transaction) (atts : list Attachment) (d : Z) :
  attachment_by_reference tx atts = None ->
  _parse_date (tx_date tx) = Some d ->
  find_attachment tx atts = accept_attachment tx (amt_candidates tx d atts).
Proof. intros Href Hd. unfold find_attachment. now rewrite Href, Hd. Qed.

(** C2: for a transaction without a contact whose reference did not
    resolve, with the exact-date matches taken against its date: when
    exactly one amount-matched attachment is at date distance zero it is
    returned, and when two or more are, and it is not the case that exactly
    one of them has a composite score within [1e-6] of [2], the result is
    [None]. *)
Theorem no_contact_same_day_policy (tx : Transaction) (atts : list Attachment) (d : Z)
        (Hc : PyStr.truthy (tx_contact tx) = false)
        (Href : attachment_by_reference tx atts = None)
        (Hd : _parse_date (tx_date tx) = Some d) :
  (forall a, exact_date_matches tx d atts = [a] -> find_attachment tx atts = Some a) /\
  ((2 <= List.length (exact_date_matches tx d atts))%nat ->
   List.length
     (filter (fun a => near_two
                         (composite_score (_best_name_similarity (tx_contact tx) a)
                                          (_date_distance_days d a)))
             (exact_date_matches tx d atts)) <> 1%nat ->
   find_attachment tx atts = None).
Proof.
  rewrite (find_attachment_scoring tx atts d Href Hd).
  rewrite (accept_attachment_no_contact tx _ Hc). cbv zeta.
  rewrite exact_date_candidates. fold (exact_date_matches tx d atts).
  split.
  - intros a ->. reflexivity.
  - intros Hlen Hnear.
    rewrite filter_map_comm, length_map.
    destruct (exact_date_matches tx d atts) as [|a [|a' r]] eqn:E;
      [simpl in Hlen; lia|simpl in Hlen; lia|].
    cbn [List.map].
    change (fun x => near_two (c_score (att_cand tx d x)))
      with (fun a => near_two
                       (composite_score (_best_name_similarity (tx_contact tx) a)
                                        (_date_distance_days d a))).
    apply Nat.eqb_neq in Hnear. now rewrite Hnear.
Qed.

(** The policy on one same-day attachment among three amount matches. *)
Lemma no_contact_same_day_policy_witness :
  find_attachment DaySample.tx [DaySample.a3; DaySample.a1] = Some DaySample.a1.
Proof.
  apply (proj1 (no_contact_same_day_policy DaySample.tx
                  [DaySample.a3; DaySample.a1] 738895 eq_refl eq_refl eq_refl)).
  reflexivity.
Defined.

(** C10: without a contact the name similarity of every candidate is zero,
    so every amount-matched candidate at date distance zero scores exactly
    [2]; all exact-date candidates are then within [1e-6] of [2], and as
    soon as there are two of them the branch, and with it [find_attachment],
    returns [None]: the count of scores near [2] never selects one among
    several same-day candidates. *)
Theorem no_contact_ambiguity_always_rejected (tx : Transaction)
        (Hc : PyStr.truthy (tx_contact tx) = false) :
  (forall att, _best_name_similarity (tx_contact tx) att = 0%Q) /\
  (forall d atts c, In c (amt_candidates tx d atts) -> c_dist c = 0 ->
                    (c_score c == 2)%Q) /\
  (forall d atts,
     let exact_date := filter (fun c => c_dist c =? 0) (amt_candidates tx d atts) in
     filter (fun c => near_two (c_score c)) exact_date = exact_date) /\
  (forall d atts,
     (2 <= List.length (filter (fun c => (c_dist c =? 0)%Z) (amt_candidates tx d atts)))%nat ->
     accept_attachment tx (amt_candidates tx d atts) = None) /\
  (forall d atts,
     attachment_by_reference tx atts = None ->
     _parse_date (tx_date tx) = Some d ->
     (2 <= List.length (exact_date_matches tx d atts))%nat ->
     find_attachment tx atts = None).
Proof.
  assert (Hscore : forall d atts c, In c (amt_candidates tx d atts) -> c_dist c = 0 ->
                                    (c_score c == 2)%Q).
  { intros d atts c Hin H0. apply amt_candidates_in in Hin as (a & _ & _ & ->).
    now apply no_contact_exact_score. }
  assert (Hall : forall d atts,
             let exact_date := filter (fun c => c_dist c =? 0) (amt_candidates tx d atts) in
             filter (fun c => near_two (c_score c)) exact_date = exact_date).
  { intros d atts exact_date. apply filter_all. intros c Hin.
    apply filter_In in Hin as [Hin H0]. apply Z.eqb_eq in H0.
    apply near_two_of_two. now apply (Hscore d atts). }
  assert (Hbranch : forall d atts,
             (2 <= List.length (filter (fun c => (c_dist c =? 0)%Z)
                                       (amt_candidates tx d atts)))%nat ->
             accept_attachment tx (amt_candidates tx d atts) = None).
  { intros d atts Hlen. rewrite (accept_attachment_no_contact tx _ Hc). cbv zeta.
    rewrite (Hall d atts).
    destruct (filter _ (amt_candidates tx d atts)) as [|c [|c' r]];
      [reflexivity|simpl in Hlen; lia|reflexivity]. }
  split; [intros att; now apply best_name_similarity_no_contact|].
  split; [exact Hscore|]. split; [exact Hall|]. split; [exact Hbranch|].
  intros d atts Href Hd Hlen.
  rewrite (find_attachment_scoring tx atts d Href Hd). apply Hbranch.
  rewrite exact_date_candidates, length_map. exact Hlen.
Qed.

(** Two same-day attachments for a transaction without a contact. *)
Lemma no_contact_ambiguity_always_rejected_witness :
  find_attachment DaySample.tx [DaySample.a1; DaySample.a2; DaySample.a3] = None.
Proof.
  destruct (no_contact_ambiguity_always_rejected DaySample.tx eq_refl)
    as (_ & _ & _ & _ & H).
  apply (H 738895); [reflexivity|reflexivity|vm_compute; lia].
Defined.

(** ** Ranking *)

Section RankingFacts.

Context {R : Type} (id : R -> Z).

Lemma key_ltb_spec (a b : cand R) :
  key_ltb id a b = true <-> ranks_before id a b.
Proof.
  unfold key_ltb, ranks_before.
  destruct (Qeq_bool (- c_score a) (- c_score b)) eqn:Es; simpl.
  - apply Qeq_bool_iff in Es.
    assert (Hs : (c_score a == c_score b)%Q) by lra.
    destruct (c_dist a =? c_dist b) eqn:Ed; simpl.
    + apply Z.eqb_eq in Ed. rewrite Z.ltb_lt. split.
      * intros H. right. split; [exact Hs|]. right. now split.
      * intros [H|[_ [H|[_ H]]]]; [lra|lia|exact H].
    + apply Z.eqb_neq in Ed. rewrite Z.ltb_lt. split.
      * intros H. right. split; [exact Hs|]. now left.
      * intros [H|[_ [H|[H _]]]]; [lra|exact H|contradiction].
  - apply Qeq_bool_neq in Es. rewrite Qltb_lt. split.
    + intros H. left. lra.
    + intros [H|[H _]]; [lra|]. elim Es. lra.
Qed.

Lemma key_ltb_false (a b : cand R) :
  key_ltb id a b = false <-> ranks_no_later id b a.
Proof.
  rewrite <- not_true_iff_false, key_ltb_spec.
  unfold ranks_before, ranks_no_later. split.
  - intros H.
    destruct (Qlt_le_dec (c_score a) (c_score b)) as [Hlt|Hle]; [now left|].
    destruct (Qlt_le_dec (c_score b) (c_score a)) as [Hlt'|Hle'];
      [elim H; now left|].
    assert (Hs : (c_score b == c_score a)%Q) by lra.
    right. split; [exact Hs|].
    destruct (Z.lt_trichotomy (c_dist b) (c_dist a)) as [Hd|[Hd|Hd]].
    + now left.
    + right. split; [exact Hd|].
      destruct (Z_le_gt_dec (id (c_rec b)) (id (c_rec a))) as [Hi|Hi]; [exact Hi|].
      elim H. right. split; [lra|]. right. split; [now symmetry|lia].
    + elim H. right. split; [lra|]. left. lia.
  - intros [H|[Hs [H|[Hd Hi]]]] [H'|[Hs' [H'|[Hd' Hi']]]]; try lra; lia.
Qed.

Lemma ranks_no_later_trans (a b c : cand R) :
  ranks_no_later id a b -> ranks_no_later id b c -> ranks_no_later id a c.
Proof.
  unfold ranks_no_later.
  intros [H|[Hs [H|[Hd Hi]]]] [H'|[Hs' [H'|[Hd' Hi']]]];
    try (left; lra);
    right; (split; [lra|]); solve [left; lia | right; split; lia].
Qed.

Lemma ranks_before_no_later (a b : cand R) :
  ranks_before id a b -> ranks_no_later id a b.
Proof.
  unfold ranks_before, ranks_no_later.
  intros [H|[Hs [H|[Hd Hi]]]]; [now left|right; split; [exact Hs|now left]|].
  right. split; [exact Hs|]. right. split; [exact Hd|lia].
Qed.



Lemma ranks_total (a b : cand R) :
  ranks_no_later id a b \/ ranks_no_later id b a.
Proof.
  destruct (key_ltb id a b) eqn:E.
  - left. now apply ranks_before_no_later, key_ltb_spec.
  - right. now apply key_ltb_false.
Qed.

Lemma insert_perm (c : cand R) (l : list (cand R)) :
  Permutation (insert id c l) (c :: l).
Proof.
  induction l as [|h t IH]; simpl; [apply Permutation_refl|].
  destruct (key_ltb id h c); [|apply Permutation_refl].
  apply perm_trans with (h :: c :: t); [now apply perm_skip|apply perm_swap].
Qed.

Lemma sort_perm (l : list (cand R)) : Permutation (sort id l) l.
Proof.
  induction l as [|h t IH]; simpl; [constructor|].
  apply perm_trans with (h :: sort id t); [apply insert_perm|now apply perm_skip].
Qed.

Lemma insert_sorted (c : cand R) (l : list (cand R)) :
  StronglySorted (ranks_no_later id) l ->
  StronglySorted (ranks_no_later id) (insert id c l).
Proof.
  induction l as [|h t IH]; intros Hs; simpl.
  - constructor; [constructor|constructor].
  - inversion Hs as [|? ? Ht Hh]; subst.
    destruct (key_ltb id h c) eqn:E.
    + constructor; [now apply IH|].
      apply Forall_forall. intros x Hx.
      apply (Permutation_in _ (insert_perm c t)) in Hx as [<-|Hx].
      * now apply ranks_before_no_later, key_ltb_spec.
      * rewrite Forall_forall in Hh. now apply Hh.
    + apply key_ltb_false in E. constructor; [exact Hs|].
      constructor; [exact E|].
      apply Forall_forall. intros x Hx. rewrite Forall_forall in Hh.
      apply ranks_no_later_trans with h; [exact E|now apply Hh].
Qed.

Lemma sort_sorted (l : list (cand R)) :
  StronglySorted (ranks_no_later id) (sort id l).
Proof.
  induction l as [|h t IH]; simpl; [constructor|now apply insert_sorted].
Qed.





(** The selected record belongs to a candidate that no other candidate
    ranks strictly before. *)
Lemma select_first_best (l : list (cand R)) :
  l <> [] ->
  exists c, In c l /\ select_first id l = Some (c_rec c) /\
            hd_error (sort id l) = Some c /\
            forall c', In c' l -> ranks_no_later id c c'.
Proof.
  intros Hne. unfold select_first.
  pose proof (sort_perm l) as Hp. pose proof (sort_sorted l) as Hs.
  destruct (sort id l) as [|c s].
  - apply Permutation_nil in Hp. contradiction.
  - exists c. split; [apply (Permutation_in _ Hp); now left|].
    split; [reflexivity|]. split; [reflexivity|].
    intros c' Hc'. apply (Permutation_in _ (Permutation_sym Hp)) in Hc'.
    inversion Hs as [|? ? _ Hh]; subst. rewrite Forall_forall in Hh.
    destruct Hc' as [<-|Hc']; [|now apply Hh].
    destruct (ranks_total c c); assumption.
Qed.


Lemma select_first_in (l : list (cand R)) (r : R) :
  select_first id l = Some r -> exists c, In c l /\ c_rec c = r.
Proof.
  intros H. destruct l as [|c0 l]; [discriminate|].
  destruct (select_first_best (c0 :: l)) as (c & Hin & Hc & _); [discriminate|].
  exists c. split; [exact Hin|congruence].
Qed.

End RankingFacts.


(** The branch of [find_attachment] with a contact is one ranked selection. *)
Lemma accept_attachment_contact (tx : Transaction) (cands : list (cand Attachment)) :
  PyStr.truthy (tx_contact tx) = true ->
  accept_attachment tx cands =
  _select_best
    (filter (fun c => Qle_bool (1 # 2) (_best_name_similarity (tx_contact tx) (c_rec c)))
            cands).
Proof.
  intros Hc. unfold accept_attachment. rewrite Hc.
  destruct cands as [|c0 cands]; [reflexivity|].
  change (is_empty (c0 :: cands)) with false. cbv iota zeta.
  destruct (filter _ (c0 :: cands)); reflexivity.
Qed.

Lemma find_attachment_contact (tx : Transaction) (atts : list Attachment) (d : Z) :
  PyStr.truthy (tx_contact tx) = true ->
  attachment_by_reference tx atts = None ->
  _parse_date (tx_date tx) = Some d ->
  find_attachment tx atts = _select_best (List.map (att_cand tx d) (name_matches tx atts)).
Proof.
  intros Hc Href Hd. rewrite (find_attachment_scoring tx atts d Href Hd).
  rewrite (accept_attachment_contact tx _ Hc).
  now rewrite amt_candidates_map, filter_map_comm, filter_filter.
Qed.

(** The acceptance of [find_transaction], case by case. *)
Lemma accept_transaction_cases (att : Attachment) (cands : list (cand Transaction)) :
  accept_transaction att cands =
  let with_contact := filter (fun c => PyStr.truthy (tx_contact (c_rec c))) cands in
  let filtered := filter (fun c => Qle_bool (3 # 2) (c_score c)) with_contact in
  if negb (is_empty (_attachment_names att)) && negb (is_empty with_contact)
     && negb (is_empty filtered)
  then select_first tx_id filtered
  else same_day_unique cands.
Proof.
  unfold accept_transaction. destruct cands as [|c0 cands].
  { cbv zeta. cbn [filter is_empty negb]. rewrite andb_false_r. reflexivity. }
  change (is_empty (c0 :: cands)) with false. cbv iota zeta.
  destruct (negb (is_empty (_attachment_names att)) && negb (is_empty _)); [|reflexivity].
  simpl. destruct (negb (is_empty _)); reflexivity.
Qed.

(** ** Independence of the input order *)















(** ** The name threshold of [find_attachment] *)




(** ** The acceptance of [find_transaction] *)




(** ** Missing dates *)

Lemma parse_date_none (value : option string) :
  _parse_date value = None <->
  value = None \/ value = Some EmptyString \/
  exists v, value = Some v /\ PyDate.strptime v = PyDate.ValueError.
Proof.
  destruct value as [[|c r]|]; simpl.
  - split; [intros _; right; now left|reflexivity].
  - unfold _parse_date. cbn [PyStr.truthy negb].
    destruct (PyDate.strptime (String c r)) as [|d] eqn:E; split.
    + intros _. right. right. now exists (String c r).
    + reflexivity.
    + discriminate.
    + intros [H|[H|(v & [= <-] & H)]]; try discriminate. congruence.
  - split; [intros _; now left|reflexivity].
Qed.

Lemma find_skip {A : Type} (f : A -> bool) (before after : list A) (x : A) :
  f x = false -> find f (before ++ x :: after) = find f (before ++ after).
Proof.
  intros H. induction before as [|y l IH]; simpl; [now rewrite H|].
  now rewrite IH.
Qed.

Lemma candidates_app (att : Attachment) (l1 l2 : list Transaction) :
  candidates att (l1 ++ l2) = candidates att l1 ++ candidates att l2.
Proof. unfold candidates. apply flat_map_app. Qed.

Lemma candidates_skip_undated (att : Attachment) (tx : Transaction)
      (before after : list Transaction) :
  _parse_date (tx_date tx) = None ->
  candidates att (before ++ tx :: after) = candidates att (before ++ after).
Proof.
  intros H. rewrite !candidates_app. f_equal.
  change (tx :: after) with ([tx] ++ after). rewrite candidates_app.
  unfold candidates at 1. simpl. rewrite H.
  now destruct (_is_amount_match tx att).
Qed.

(** C4: when the reference did not resolve and the date of the transaction
    is missing or does not parse, [find_attachment] returns [None] whatever
    the attachments are; in [find_transaction] a transaction without a
    usable date is only left out of the candidates: unless the reference
    selects it, the result is the result on the other transactions. *)
Theorem missing_date_asymmetry :
  (forall value, _parse_date value = None <->
                 value = None \/ value = Some EmptyString \/
                 exists v, value = Some v /\ PyDate.strptime v = PyDate.ValueError) /\
  (forall tx atts,
     attachment_by_reference tx atts = None ->
     _parse_date (tx_date tx) = None ->
     find_attachment tx atts = None) /\
  (forall att tx before after,
     _parse_date (tx_date tx) = None ->
     candidates att (before ++ tx :: after) = candidates att (before ++ after) /\
     (_reference_match tx att = false ->
      find_transaction att (before ++ tx :: after)
      = find_transaction att (before ++ after))).
Proof.
  split; [exact parse_date_none|]. split.
  - intros tx atts Href Hd. unfold find_attachment. now rewrite Href, Hd.
  - intros att tx before after Hd.
    split; [now apply candidates_skip_undated|].
    intros Hm. unfold find_transaction, transaction_by_reference.
    rewrite (find_skip _ before after tx Hm).
    now rewrite (candidates_skip_undated att tx before after Hd).
Qed.

(** An undated transaction facing a same-day attachment finds nothing; an
    undated transaction in the list does not hide the dated ones. *)
Lemma missing_date_asymmetry_witness :
  find_attachment TxSample.undated [TxSample.att] = None /\
  find_transaction TxSample.att [TxSample.undated; TxSample.named]
  = find_transaction TxSample.att [TxSample.named] /\
  find_transaction TxSample.att [TxSample.named] = Some TxSample.named.
Proof.
  destruct missing_date_asymmetry as (_ & Ha & Ht).
  split; [apply Ha; reflexivity|]. split; [|reflexivity].
  apply (proj2 (Ht TxSample.att TxSample.undated [] [TxSample.named] eq_refl)).
  reflexivity.
Defined.

(** ** The composite score *)



(** ** Totality: the result is a record of the input or no match *)

Lemma hd_error_in {A : Type} (l : list A) (x : A) : hd_error l = Some x -> In x l.
Proof. destruct l; simpl; [discriminate|intros [= ->]; now left]. Qed.










(** * Further properties of [src/match.py] *)

(** ** The normalizer: fixed points and insensitivity *)

Lemma upper_char_fix (c : ascii) : clean_char c = true -> PyStr.upper_char c = c.
Proof.
  destruct c as [[] [] [] [] [] [] [] []]; intros H;
    solve [reflexivity | discriminate H].
Qed.

Lemma remove_spaces_fix (s : string) :
  PyStr.forallb clean_char s = true -> PyStr.remove_spaces s = s.
Proof.
  induction s as [|c r IH]; simpl; [reflexivity|].
  intros H. apply andb_prop in H as [Hc Hr].
  unfold clean_char in Hc. apply andb_prop in Hc as [Hs _].
  unfold only_space in Hs. apply negb_true_iff in Hs. rewrite Hs.
  now rewrite IH.
Qed.

Lemma upper_fix (s : string) :
  PyStr.forallb clean_char s = true -> PyStr.upper s = s.
Proof.
  unfold PyStr.upper. induction s as [|c r IH]; simpl; [reflexivity|].
  intros H. apply andb_prop in H as [Hc Hr].
  now rewrite (upper_char_fix c Hc), IH.
Qed.

Lemma remove_spaces_app (a b : string) :
  PyStr.remove_spaces (a ++ b)%string
  = (PyStr.remove_spaces a ++ PyStr.remove_spaces b)%string.
Proof.
  induction a as [|c r IH]; simpl; [reflexivity|].
  destruct (c =? " ")%char; simpl; now rewrite IH.
Qed.

Lemma normalize_reference_unfold (c : ascii) (r : string) :
  _normalize_reference (Some (String c r)) =
  let cleaned := PyStr.upper (PyStr.remove_spaces (String c r)) in
  if PyStr.isdigit cleaned
  then Some (PyStr.or_else (PyStr.lstrip_zeros cleaned) "0")
  else Some cleaned.
Proof. reflexivity. Qed.

Lemma normalize_reference_cleaned (r1 r2 : string) :
  r1 <> EmptyString -> r2 <> EmptyString ->
  PyStr.upper (PyStr.remove_spaces r1) = PyStr.upper (PyStr.remove_spaces r2) ->
  _normalize_reference (Some r1) = _normalize_reference (Some r2).
Proof.
  destruct r1 as [|c1 r1]; [intros H; now elim H|].
  destruct r2 as [|c2 r2]; [intros _ H; now elim H|].
  intros _ _ H. rewrite !normalize_reference_unfold. cbv zeta. now rewrite H.
Qed.

(** X1: a non-empty normalized reference is a fixed point of the
    normalizer, so normalizing twice is normalizing once. *)
Theorem normalize_reference_idempotent (ref : option string) (out : string)
        (Hn : _normalize_reference ref = Some out) (Hout : out <> EmptyString) :
  _normalize_reference (Some out) = Some out.
Proof.
  destruct (normalize_reference_clean ref out Hn) as [Hclean Hdig].
  destruct out as [|c t]; [now elim Hout|].
  rewrite normalize_reference_unfold. cbv zeta.
  rewrite (remove_spaces_fix _ Hclean), (upper_fix _ Hclean).
  destruct (PyStr.isdigit (String c t)) eqn:E; [|reflexivity].
  destruct (Hdig eq_refl) as [H|(c' & t' & H & Hc')].
  - injection H as -> ->. reflexivity.
  - injection H as <- <-. simpl.
    apply Ascii.eqb_neq in Hc'. now rewrite Hc'.
Qed.

Lemma normalize_reference_idempotent_witness :
  _normalize_reference (Some " rf 007 ") = Some "RF007" /\
  _normalize_reference (Some "RF007") = Some "RF007".
Proof.
  split; [reflexivity|].
  apply (normalize_reference_idempotent (Some " rf 007 ") "RF007" eq_refl).
  discriminate.
Defined.

Lemma upper_lower_char (c : ascii) :
  PyStr.upper_char (PyStr.lower_char c) = PyStr.upper_char c.
Proof. destruct c as [[] [] [] [] [] [] [] []]; reflexivity. Qed.

Lemma upper_upper_char (c : ascii) :
  PyStr.upper_char (PyStr.upper_char c) = PyStr.upper_char c.
Proof. destruct c as [[] [] [] [] [] [] [] []]; reflexivity. Qed.

Lemma lower_char_space (c : ascii) :
  (PyStr.lower_char c =? " ")%char = (c =? " ")%char.
Proof. destruct c as [[] [] [] [] [] [] [] []]; reflexivity. Qed.

Lemma upper_char_space (c : ascii) :
  (PyStr.upper_char c =? " ")%char = (c =? " ")%char.
Proof. destruct c as [[] [] [] [] [] [] [] []]; reflexivity. Qed.

Lemma remove_spaces_map (f : ascii -> ascii) (s : string) :
  (forall c, (f c =? " ")%char = (c =? " ")%char) ->
  PyStr.remove_spaces (PyStr.map f s) = PyStr.map f (PyStr.remove_spaces s).
Proof.
  intros Hf. induction s as [|c r IH]; simpl; [reflexivity|].
  rewrite Hf. destruct (c =? " ")%char; simpl; now rewrite IH.
Qed.

Lemma map_map_string (f g : ascii -> ascii) (s : string) :
  PyStr.map f (PyStr.map g s) = PyStr.map (fun c => f (g c)) s.
Proof. induction s as [|c r IH]; simpl; [reflexivity|now rewrite IH]. Qed.

Lemma map_ext_string (f g : ascii -> ascii) (s : string) :
  (forall c, f c = g c) -> PyStr.map f s = PyStr.map g s.
Proof.
  intros H. induction s as [|c r IH]; simpl; [reflexivity|now rewrite H, IH].
Qed.

Lemma digit_clean (c : ascii) : PyStr.is_digit c = true -> clean_char c = true.
Proof.
  destruct c as [[] [] [] [] [] [] [] []]; intros H;
    solve [reflexivity | discriminate H].
Qed.

Lemma digits_clean (s : string) :
  PyStr.forallb PyStr.is_digit s = true -> PyStr.forallb clean_char s = true.
Proof.
  induction s as [|c r IH]; simpl; [reflexivity|].
  intros H. apply andb_prop in H as [Hc Hr].
  now rewrite (digit_clean c Hc), IH.
Qed.

Lemma isdigit_forallb (s : string) :
  PyStr.isdigit s = true -> PyStr.forallb PyStr.is_digit s = true.
Proof. destruct s; [discriminate|exact (fun H => H)]. Qed.

(** X2: references that differ only by a space, by letter case, or, when
    numeric, by a leading zero normalize to the same value. *)
Theorem normalize_reference_insensitive :
  (forall a b, (a ++ b)%string <> EmptyString ->
     _normalize_reference (Some (a ++ String " " b)%string)
     = _normalize_reference (Some (a ++ b)%string)) /\
  (forall r, _normalize_reference (Some (PyStr.lower r)) = _normalize_reference (Some r)) /\
  (forall r, _normalize_reference (Some (PyStr.upper r)) = _normalize_reference (Some r)) /\
  (forall r, PyStr.isdigit r = true ->
     _normalize_reference (Some (String "0" r)) = _normalize_reference (Some r)).
Proof.
  split; [|split; [|split]].
  - intros a b Hne. apply normalize_reference_cleaned.
    + destruct a; discriminate.
    + exact Hne.
    + now rewrite !remove_spaces_app.
  - intros r. destruct r as [|c r]; [reflexivity|].
    apply normalize_reference_cleaned; try discriminate.
    unfold PyStr.lower, PyStr.upper.
    rewrite (remove_spaces_map _ _ lower_char_space), map_map_string.
    apply map_ext_string, upper_lower_char.
  - intros r. destruct r as [|c r]; [reflexivity|].
    apply normalize_reference_cleaned; try discriminate.
    unfold PyStr.upper.
    rewrite (remove_spaces_map _ _ upper_char_space), map_map_string.
    apply map_ext_string, upper_upper_char.
  - intros r Hd. pose proof (digits_clean r (isdigit_forallb r Hd)) as Hc.
    destruct r as [|c r]; [discriminate Hd|].
    rewrite !normalize_reference_unfold. cbv zeta.
    change (PyStr.remove_spaces (String "0" (String c r)))
      with (String "0" (PyStr.remove_spaces (String c r))).
    rewrite (remove_spaces_fix _ Hc).
    change (PyStr.upper (String "0" (String c r)))
      with (String "0" (PyStr.upper (String c r))).
    rewrite (upper_fix _ Hc).
    change (PyStr.isdigit (String "0" (String c r)))
      with (PyStr.forallb PyStr.is_digit (String c r)).
    change (PyStr.isdigit (String c r))
      with (PyStr.forallb PyStr.is_digit (String c r)) in Hd |- *.
    rewrite Hd. reflexivity.
Qed.

Lemma normalize_reference_insensitive_witness :
  _normalize_reference (Some "RF18 5390") = _normalize_reference (Some "RF185390") /\
  _normalize_reference (Some "0123") = _normalize_reference (Some "123").
Proof.
  destruct normalize_reference_insensitive as (Hs & _ & _ & Hz).
  split.
  - apply (Hs "RF18" "5390"). discriminate.
  - apply (Hz "123"). reflexivity.
Defined.

(** ** [_tokenize] *)

Lemma forallb_app_string (p : ascii -> bool) (a b : string) :
  PyStr.forallb p (a ++ b)%string = PyStr.forallb p a && PyStr.forallb p b.
Proof.
  induction a as [|c r IH]; simpl; [reflexivity|].
  now rewrite IH, andb_assoc.
Qed.

Lemma flush_in (cur t : string) : In t (flush cur) -> t = cur /\ cur <> EmptyString.
Proof.
  destruct cur; simpl; [intros []|]. intros [<-|[]]. split; [reflexivity|discriminate].
Qed.

(** Every run found is non-empty and made of token characters. *)
Lemma findall_tokens (s cur t : string) :
  PyStr.forallb is_token_char cur = true ->
  In t (findall cur s) ->
  t <> EmptyString /\ PyStr.forallb is_token_char t = true.
Proof.
  revert cur. induction s as [|c r IH]; intros cur Hcur; simpl.
  - intros H. apply flush_in in H as [-> Hne]. now split.
  - destruct (is_token_char c) eqn:E.
    + apply IH. rewrite forallb_app_string, Hcur. simpl. now rewrite E.
    + intros H. apply in_app_or in H as [H|H].
      * apply flush_in in H as [-> Hne]. now split.
      * now apply (IH EmptyString).
Qed.

Lemma lower_char_alnum (c : ascii) :
  is_token_char c = true -> lower_alnum (PyStr.lower_char c) = true.
Proof.
  destruct c as [[] [] [] [] [] [] [] []]; intros H;
    solve [reflexivity | discriminate H].
Qed.

Lemma lower_alnum_string (t : string) :
  PyStr.forallb is_token_char t = true ->
  PyStr.forallb lower_alnum (PyStr.lower t) = true.
Proof.
  unfold PyStr.lower. induction t as [|c r IH]; simpl; [reflexivity|].
  intros H. apply andb_prop in H as [Hc Hr].
  now rewrite (lower_char_alnum c Hc), IH.
Qed.

Lemma lower_nonempty (t : string) : t <> EmptyString -> PyStr.lower t <> EmptyString.
Proof. destruct t; [intros H; now elim H|discriminate]. Qed.

Lemma mem_In (t : string) (l : list string) : mem t l = true <-> In t l.
Proof.
  unfold mem. rewrite existsb_exists. split.
  - intros (x & Hx & E). apply String.eqb_eq in E. now subst.
  - intros H. exists t. split; [exact H|apply String.eqb_refl].
Qed.

Lemma tokenize_in (n t : string) :
  In t (_tokenize (Some n)) ->
  In t (List.map PyStr.lower (findall EmptyString n)) /\ ~ In t _STOP_WORDS.
Proof.
  unfold _tokenize. destruct (negb (PyStr.truthy (Some n))); [intros []|].
  intros H. apply filter_In in H as [H Hs]. apply nodup_In in H.
  split; [exact H|]. intros Hin. apply mem_In in Hin. now rewrite Hin in Hs.
Qed.

(** X3: the tokens of a name are pairwise distinct, none is a stop word,
    and each is a non-empty run of lowercase letters and digits; the
    regular expression never yields a token with punctuation, so the stop
    words [oy.] and [oy,] are never met. *)
Theorem tokenize_invariants (name : option string) :
  NoDup (_tokenize name) /\
  (forall t, In t (_tokenize name) ->
             t <> EmptyString /\ ~ In t _STOP_WORDS /\
             PyStr.forallb lower_alnum t = true) /\
  (forall n t, In t (List.map PyStr.lower (findall EmptyString n)) ->
               t <> "oy." /\ t <> "oy,").
Proof.
  split; [apply tokenize_NoDup|]. split.
  - intros t Hin. destruct name as [n|]; [|destruct Hin].
    apply tokenize_in in Hin as [Hin Hstop].
    apply in_map_iff in Hin as (raw & <- & Hraw).
    apply (findall_tokens n EmptyString raw eq_refl) in Hraw as [Hne Htok].
    split; [now apply lower_nonempty|]. split; [exact Hstop|].
    now apply lower_alnum_string.
  - intros n t Hin. apply in_map_iff in Hin as (raw & <- & Hraw).
    apply (findall_tokens n EmptyString raw eq_refl) in Hraw as [_ Htok].
    apply lower_alnum_string in Htok.
    split; intros E; rewrite E in Htok; discriminate Htok.
Qed.

Lemma tokenize_invariants_witness :
  _tokenize (Some "Acme-Trading OY, acme Ltd.") = ["trading"; "acme"] /\
  ("acme" <> EmptyString /\ ~ In "acme" _STOP_WORDS /\
   PyStr.forallb lower_alnum "acme" = true).
Proof.
  split; [reflexivity|].
  destruct (tokenize_invariants (Some "Acme-Trading OY, acme Ltd.")) as (_ & H & _).
  apply H. right. now left.
Defined.

(** ** [_name_similarity] *)

Lemma set_inter_in (a b : list string) (t : string) :
  In t (set_inter a b) <-> In t a /\ In t b.
Proof. unfold set_inter. now rewrite filter_In, mem_In. Qed.

Lemma set_union_in (a b : list string) (t : string) :
  In t (set_union a b) <-> In t a \/ In t b.
Proof. unfold set_union. now rewrite nodup_In, in_app_iff. Qed.

Lemma NoDup_same_length {A : Type} (l l' : list A) :
  NoDup l -> NoDup l' -> (forall x, In x l <-> In x l') ->
  List.length l = List.length l'.
Proof.
  intros Hl Hl' H. apply Nat.le_antisymm; apply NoDup_incl_length; try assumption;
    intros x Hx; now apply H.
Qed.

Lemma set_inter_NoDup (a b : list string) : NoDup a -> NoDup (set_inter a b).
Proof. intros H. now apply NoDup_filter. Qed.

Lemma set_union_NoDup (a b : list string) : NoDup (set_union a b).
Proof. apply NoDup_nodup. Qed.

Lemma set_inter_length_comm (a b : list string) :
  NoDup a -> NoDup b ->
  List.length (set_inter a b) = List.length (set_inter b a).
Proof.
  intros Ha Hb. apply NoDup_same_length; try now apply set_inter_NoDup.
  intros t. rewrite !set_inter_in. tauto.
Qed.

Lemma set_union_length_comm (a b : list string) :
  List.length (set_union a b) = List.length (set_union b a).
Proof.
  apply NoDup_same_length; try apply set_union_NoDup.
  intros t. rewrite !set_union_in. tauto.
Qed.

Lemma Qnat_div_self (n : nat) : (0 < n)%nat -> (Qnat n / Qnat n == 1)%Q.
Proof.
  intros H. apply Qmult_inv_r. intros E.
  pose proof (Qnat_pos n H) as Hp. rewrite E in Hp. discriminate Hp.
Qed.

Lemma length_pos_in {A : Type} (l : list A) :
  (0 < List.length l)%nat <-> exists x, In x l.
Proof.
  destruct l as [|x l]; simpl; split.
  - lia.
  - intros (x & []).
  - intros _. exists x. now left.
  - lia.
Qed.

Lemma set_inter_nil_r (a : list string) : set_inter a [] = [].
Proof. induction a as [|x a IH]; [reflexivity|exact IH]. Qed.

(** The similarity in terms of the two token sets. *)
Lemma name_similarity_tokens (a b : option string) :
  _name_similarity a b =
  if Nat.eqb (List.length (set_inter (_tokenize a) (_tokenize b))) 0 then 0%Q
  else (Qnat (List.length (set_inter (_tokenize a) (_tokenize b)))
        / Qnat (List.length (set_union (_tokenize a) (_tokenize b))))%Q.
Proof.
  unfold _name_similarity.
  destruct (_tokenize a) as [|x ta]; [reflexivity|].
  destruct (_tokenize b) as [|y tb]; [|reflexivity].
  cbn [is_empty orb]. now rewrite set_inter_nil_r.
Qed.

(** X4: the name similarity is symmetric; it is positive exactly when the
    two names share a token; and it is one when both names have the same,
    non-empty, set of tokens (so letter case, token order, punctuation and
    the company suffixes of the stop list make no difference). *)
Theorem name_similarity_symmetric (a b : option string) :
  _name_similarity a b = _name_similarity b a /\
  ((0 < _name_similarity a b)%Q <->
   exists t, In t (_tokenize a) /\ In t (_tokenize b)) /\
  (_tokenize a <> [] ->
   (forall t, In t (_tokenize a) <-> In t (_tokenize b)) ->
   (_name_similarity a b == 1)%Q).
Proof.
  pose proof (tokenize_NoDup a) as Ha. pose proof (tokenize_NoDup b) as Hb.
  split; [|split].
  - rewrite !name_similarity_tokens.
    now rewrite (set_inter_length_comm _ _ Ha Hb), (set_union_length_comm (_tokenize a)).
  - rewrite name_similarity_tokens.
    set (i := List.length (set_inter _ _)). set (u := List.length (set_union _ _)).
    assert (Hiu : (i <= u)%nat) by now apply inter_le_union.
    destruct (Nat.eqb i 0) eqn:E.
    + apply Nat.eqb_eq in E. split.
      * intros H. discriminate H.
      * intros (t & Hta & Htb).
        assert (Hpos : (0 < i)%nat).
        { apply length_pos_in. exists t. now apply set_inter_in. }
        lia.
    + apply Nat.eqb_neq in E. split.
      * intros _. assert (Hpos : (0 < i)%nat) by lia.
        apply length_pos_in in Hpos as (t & Ht). exists t. now apply set_inter_in.
      * intros _. apply Qlt_shift_div_l; [apply Qnat_pos; lia|].
        rewrite Qmult_0_l. apply Qnat_pos. lia.
  - intros Hne Hsame. rewrite name_similarity_tokens.
    assert (Hi : List.length (set_inter (_tokenize a) (_tokenize b))
                 = List.length (_tokenize a)).
    { apply NoDup_same_length; [now apply set_inter_NoDup|exact Ha|].
      intros t. rewrite set_inter_in. split; [tauto|].
      intros H. split; [exact H|now apply Hsame]. }
    assert (Hu : List.length (set_union (_tokenize a) (_tokenize b))
                 = List.length (_tokenize a)).
    { apply NoDup_same_length; [apply set_union_NoDup|exact Ha|].
      intros t. rewrite set_union_in. split; [|tauto].
      intros [H|H]; [exact H|now apply Hsame]. }
    rewrite Hi, Hu.
    destruct (_tokenize a) as [|x ta]; [now elim Hne|].
    cbn [List.length Nat.eqb]. apply Qnat_div_self. simpl. lia.
Qed.

Lemma name_similarity_symmetric_witness :
  (_name_similarity (Some "Acme Trading Oy") (Some "TRADING, acme ltd.") == 1)%Q.
Proof.
  apply (name_similarity_symmetric (Some "Acme Trading Oy") (Some "TRADING, acme ltd.")).
  - discriminate.
  - intros t. simpl. tauto.
Defined.

(** ** [_attachment_names] and [_best_name_similarity] *)

Lemma name_of_field_in (val : option string) (n : string) :
  In n (match val with
        | Some v => if PyStr.truthy val && negb (String.eqb (PyStr.lower v) own_company)
                    then [v] else []
        | None => []
        end) <->
  val = Some n /\ n <> EmptyString /\ PyStr.lower n <> own_company.
Proof.
  destruct val as [v|]; [|split; [intros []|intros [H _]; discriminate H]].
  destruct v as [|c r].
  - simpl. split; [intros []|]. intros ([= <-] & H & _). now elim H.
  - cbn [PyStr.truthy andb].
    destruct (String.eqb (PyStr.lower (String c r)) own_company) eqn:E; simpl.
    + apply String.eqb_eq in E. split; [intros []|].
      intros ([= <-] & _ & H). now elim H.
    + apply String.eqb_neq in E. split.
      * intros [<-|[]]. repeat split; [discriminate|exact E].
      * intros ([= <-] & _). now left.
Qed.

(** X5: the counterparty names of an attachment are exactly its non-empty
    supplier, issuer and recipient values that differ, ignoring letter
    case, from the name of the own company; there are at most three. *)
Theorem attachment_names_spec (att : Attachment) :
  (forall n, In n (_attachment_names att) <->
             (supplier (get_data att) = Some n \/ issuer (get_data att) = Some n
              \/ recipient (get_data att) = Some n) /\
             n <> EmptyString /\ PyStr.lower n <> own_company) /\
  (List.length (_attachment_names att) <= 3)%nat.
Proof.
  unfold _attachment_names. cbv zeta. split.
  - intros n. cbn [flat_map]. rewrite app_nil_r, !in_app_iff, !name_of_field_in. tauto.
  - cbn [flat_map]. rewrite app_nil_r, !length_app.
    destruct (supplier (get_data att)) as [v1|], (issuer (get_data att)) as [v2|],
             (recipient (get_data att)) as [v3|];
      repeat match goal with |- context [if ?b then _ else _] => destruct b end;
      simpl; lia.
Qed.

Lemma attachment_names_spec_witness :
  In "Acme Oy" (_attachment_names
                  (mkAttachment 1 (Some (mkData (Some "EXAMPLE Company Oy") (Some "Acme Oy")
                                                (Some EmptyString) None None None None None)))).
Proof.
  apply attachment_names_spec. split; [right; left; reflexivity|].
  split; discriminate.
Defined.

Lemma max_similarity_step (contact : option string) (names : list string) (b : Q) :
  let f := fun best name => py_max best (_name_similarity contact (Some name)) in
  (b <= fold_left f names b)%Q /\
  (forall n, In n names -> (_name_similarity contact (Some n) <= fold_left f names b)%Q) /\
  (fold_left f names b = b \/
   exists n, In n names /\ fold_left f names b = _name_similarity contact (Some n)).
Proof.
  intros f. revert b. induction names as [|x names IH]; intros b; simpl.
  - split; [apply Qle_refl|]. split; [intros n []|now left].
  - destruct (IH (f b x)) as (Hb & Hall & Hatt).
    assert (Hbx : (b <= f b x)%Q).
    { unfold f, py_max. destruct (Qltb b _) eqn:E; [|apply Qle_refl].
      apply Qltb_lt in E. now apply Qlt_le_weak. }
    assert (Hxx : (_name_similarity contact (Some x) <= f b x)%Q).
    { unfold f, py_max. destruct (Qltb b _) eqn:E; [apply Qle_refl|].
      now apply Qltb_ge. }
    split; [now apply Qle_trans with (f b x)|]. split.
    + intros n [<-|Hn]; [now apply Qle_trans with (f b x)|now apply Hall].
    + destruct Hatt as [E|(n & Hn & E)].
      * assert (Hcase : f b x = _name_similarity contact (Some x) \/ f b x = b).
        { unfold f, py_max. destruct (Qltb b _); [now left|now right]. }
        destruct Hcase as [H|H].
        -- right. exists x. split; [now left|]. now rewrite E.
        -- left. now rewrite E.
      * right. exists n. split; [now right|exact E].
Qed.

(** X6: for a transaction with a contact, the best name similarity is an
    upper bound of the similarity to every counterparty name of the
    attachment and is attained by one of them, or is zero. *)
Theorem best_name_similarity_is_max (contact : option string) (att : Attachment)
        (Hc : PyStr.truthy contact = true) :
  (forall n, In n (_attachment_names att) ->
             (_name_similarity contact (Some n) <= _best_name_similarity contact att)%Q) /\
  (_best_name_similarity contact att = 0%Q \/
   exists n, In n (_attachment_names att) /\
             _best_name_similarity contact att = _name_similarity contact (Some n)).
Proof.
  unfold _best_name_similarity. rewrite Hc. cbn [negb]. unfold max_similarity.
  destruct (max_similarity_step contact (_attachment_names att) 0%Q) as (_ & Hall & Hatt).
  split; [exact Hall|exact Hatt].
Qed.

Lemma best_name_similarity_is_max_witness :
  (_name_similarity (Some "Acme Corp") (Some "Acme Oy")
   <= _best_name_similarity (Some "Acme Corp") NameSample.half)%Q.
Proof.
  apply (best_name_similarity_is_max (Some "Acme Corp") NameSample.half eq_refl).
  now left.
Defined.

(** ** [_date_distance_days] *)

Lemma keep_some_in {A : Type} (l : list (option A)) (x : A) :
  In x (keep_some l) <-> In (Some x) l.
Proof.
  induction l as [|[y|] l IH]; simpl.
  - tauto.
  - rewrite IH. split; intros [H|H]; try (now right); left; congruence.
  - rewrite IH. split; [now right|]. intros [H|H]; [discriminate|exact H].
Qed.

Lemma list_min_bound (l : list Z) (x y : Z) : In y (x :: l) -> list_min x l <= y.
Proof.
  unfold list_min. revert x y. induction l as [|z l IH]; intros x y; simpl.
  - intros [<-|[]]. lia.
  - pose proof (IH (Z.min x z) (Z.min x z) (or_introl eq_refl)) as Hm.
    intros [<-|[<-|H]]; [lia|lia|]. apply IH. now right.
Qed.

Lemma list_min_attained (l : list Z) (x : Z) : In (list_min x l) (x :: l).
Proof.
  unfold list_min. revert x. induction l as [|y l IH]; intros x; simpl; [now left|].
  destruct (IH (Z.min x y)) as [H|H]; [|right; now right].
  rewrite <- H. destruct (Z.min_spec x y) as [[_ ->]|[_ ->]]; [now left|right; now left].
Qed.

Lemma has_date_in (att : Attachment) (x : Z) :
  has_date att x <->
  In x (keep_some [ _parse_date (due_date (get_data att));
                    _parse_date (invoicing_date (get_data att));
                    _parse_date (receiving_date (get_data att)) ]).
Proof.
  rewrite keep_some_in. unfold has_date. simpl.
  split; [intros [H|[H|H]]; auto|intros [H|[H|[H|[]]]]; auto].
Qed.

Lemma date_distance_lower (d : Z) (att : Attachment) (x : Z) :
  has_date att x -> _date_distance_days d att <= Z.abs (x - d).
Proof.
  intros Hx. apply has_date_in in Hx. unfold _date_distance_days. cbv zeta.
  apply (in_map (fun y => Z.abs (y - d))) in Hx.
  destruct (List.map _ _) as [|z r]; [destruct Hx|]. now apply list_min_bound.
Qed.

Lemma date_distance_attained (d : Z) (att : Attachment) (x : Z) :
  has_date att x ->
  exists y, has_date att y /\ _date_distance_days d att = Z.abs (y - d).
Proof.
  intros Hx. apply has_date_in in Hx. unfold _date_distance_days. cbv zeta.
  set (ps := keep_some _) in *.
  destruct (List.map (fun y => Z.abs (y - d)) ps) as [|z r] eqn:E.
  - destruct ps; [destruct Hx|discriminate E].
  - pose proof (list_min_attained r z) as Hin. rewrite <- E in Hin.
    apply in_map_iff in Hin as (y & Hy & Hin).
    exists y. split; [now apply has_date_in|now symmetry].
Qed.

Lemma date_distance_zero (d : Z) (att : Attachment) :
  _date_distance_days d att = 0 <-> has_date att d.
Proof.
  split.
  - intros H0.
    destruct (keep_some [ _parse_date (due_date (get_data att));
                          _parse_date (invoicing_date (get_data att));
                          _parse_date (receiving_date (get_data att)) ])
      as [|x ps] eqn:E.
    + unfold _date_distance_days in H0. cbv zeta in H0. rewrite E in H0.
      discriminate H0.
    + assert (Hx : has_date att x) by (apply has_date_in; rewrite E; now left).
      destruct (date_distance_attained d att x Hx) as (y & Hy & Hd). rewrite H0 in Hd.
      assert (y = d) by lia. now subst y.
  - intros Hd. pose proof (date_distance_lower d att d Hd) as H.
    pose proof (date_distance_nonneg d att).
    rewrite Z.sub_diag in H. simpl in H. lia.
Qed.

(** X7: the date distance is the smallest day difference between the
    transaction date and the dates of the attachment that parse: it bounds
    each of them from below, one of them attains it, and it is zero exactly
    when one of the dates is the transaction date itself. *)
Theorem date_distance_is_min (d : Z) (att : Attachment) :
  (forall x, has_date att x -> _date_distance_days d att <= Z.abs (x - d)) /\
  (forall x, has_date att x ->
             exists y, has_date att y /\ _date_distance_days d att = Z.abs (y - d)) /\
  (_date_distance_days d att = 0 <-> has_date att d).
Proof.
  split; [exact (date_distance_lower d att)|].
  split; [exact (date_distance_attained d att)|exact (date_distance_zero d att)].
Qed.

Lemma date_distance_is_min_witness :
  _date_distance_days 738917 NameSample.half <= Z.abs (738927 - 738917).
Proof.
  apply (date_distance_is_min 738917 NameSample.half). left. reflexivity.
Defined.

(** ** [_is_amount_match] *)






(** ** References that are blank *)

Lemma remove_spaces_empty (r : string) :
  PyStr.remove_spaces r = EmptyString <-> all_spaces r = true.
Proof.
  unfold all_spaces. induction r as [|c r IH]; simpl; [tauto|].
  unfold only_space at 1. destruct (c =? " ")%char; simpl; [exact IH|].
  split; discriminate.
Qed.

Lemma upper_empty (s : string) : PyStr.upper s = EmptyString <-> s = EmptyString.
Proof. destruct s; simpl; split; try reflexivity; discriminate. Qed.

Lemma normalize_reference_blank (ref : option string) :
  PyStr.truthy (_normalize_reference ref) = false <->
  ref = None \/ exists r, ref = Some r /\ all_spaces r = true.
Proof.
  destruct ref as [[|c r]|].
  - split; [intros _; right; now exists EmptyString|reflexivity].
  - rewrite normalize_reference_unfold. cbv zeta.
    set (cleaned := PyStr.upper (PyStr.remove_spaces (String c r))).
    assert (Hc : cleaned = EmptyString <-> all_spaces (String c r) = true).
    { unfold cleaned. now rewrite upper_empty, remove_spaces_empty. }
    destruct (PyStr.isdigit cleaned) eqn:E.
    + assert (Hne : PyStr.truthy
                      (Some (PyStr.or_else (PyStr.lstrip_zeros cleaned) "0")) = true).
      { now destruct (PyStr.lstrip_zeros cleaned). }
      rewrite Hne. split; [discriminate|].
      intros [H|(r' & [= <-] & H)]; [discriminate|].
      apply Hc in H. rewrite H in E. discriminate E.
    + split.
      * intros H. right. exists (String c r). split; [reflexivity|].
        apply Hc. now destruct cleaned.
      * intros [H|(r' & [= <-] & H)]; [discriminate|].
        apply Hc in H. now rewrite H.
  - split; [intros _; now left|reflexivity].
Qed.

(** X9: a reference that is missing, empty or made of spaces only does not
    take part in the matching: such a transaction is matched as if it had
    no reference, and so is such an attachment, although [_reference_match]
    on its own accepts two blank references. *)
Theorem blank_reference_is_missing :
  (forall ref, PyStr.truthy (_normalize_reference ref) = false <->
               ref = None \/ exists r, ref = Some r /\ all_spaces r = true) /\
  (forall tx atts,
     PyStr.truthy (_normalize_reference (tx_reference tx)) = false ->
     find_attachment tx atts = find_attachment (without_reference tx) atts) /\
  (forall att txs,
     PyStr.truthy (_normalize_reference (reference (get_data att))) = false ->
     find_transaction att txs = find_transaction (att_without_reference att) txs) /\
  (forall tx att r1 r2,
     tx_reference tx = Some (String " " r1) -> all_spaces r1 = true ->
     reference (get_data att) = Some (String " " r2) -> all_spaces r2 = true ->
     _reference_match tx att = true).
Proof.
  split; [exact normalize_reference_blank|]. split; [|split].
  - intros tx atts H. unfold find_attachment, attachment_by_reference.
    rewrite H. reflexivity.
  - intros att txs H. unfold find_transaction, transaction_by_reference.
    rewrite H. reflexivity.
  - intros tx att r1 r2 H1 Hs1 H2 Hs2. unfold _reference_match.
    rewrite H1, H2, !normalize_reference_unfold. cbv zeta.
    assert (E1 : PyStr.remove_spaces (String " " r1) = EmptyString)
      by now apply remove_spaces_empty.
    assert (E2 : PyStr.remove_spaces (String " " r2) = EmptyString)
      by now apply remove_spaces_empty.
    rewrite E1, E2. reflexivity.
Qed.

Lemma blank_reference_is_missing_witness :
  find_attachment (Sample.tx 1 (-500) (Some "2024-01-10") (Some "   ") None)
                  [Sample.att 2 500 (Some " ") None (Some "2024-01-10")]
  = find_attachment
      (without_reference (Sample.tx 1 (-500) (Some "2024-01-10") (Some "   ") None))
      [Sample.att 2 500 (Some " ") None (Some "2024-01-10")] /\
  _reference_match (Sample.tx 1 (-500) (Some "2024-01-10") (Some "   ") None)
                   (Sample.att 2 500 (Some " ") None (Some "2024-01-10")) = true.
Proof.
  destruct blank_reference_is_missing as (_ & Hf & _ & Hm).
  split.
  - apply Hf. reflexivity.
  - apply (Hm _ _ "  " EmptyString); reflexivity.
Defined.

(** ** What a result always satisfies *)

Lemma accept_attachment_sound (tx : Transaction) (cands : list (cand Attachment))
      (a : Attachment) :
  accept_attachment tx cands = Some a ->
  exists c, In c cands /\ c_rec c = a /\
            if PyStr.truthy (tx_contact tx)
            then (1 # 2 <= _best_name_similarity (tx_contact tx) a)%Q
            else c_dist c = 0.
Proof.
  destruct (PyStr.truthy (tx_contact tx)) eqn:Hc.
  - rewrite (accept_attachment_contact tx cands Hc). intros H.
    apply select_first_in in H as (c & Hin & Hrec).
    apply filter_In in Hin as [Hin Hs]. exists c. split; [exact Hin|].
    split; [exact Hrec|]. rewrite Hrec in Hs. now apply Qle_bool_iff.
  - rewrite (accept_attachment_no_contact tx cands Hc). cbv zeta.
    destruct (filter _ cands) as [|c [|c' r]] eqn:E; [discriminate| |].
    + intros [= <-].
      assert (H : In c (filter (fun c => c_dist c =? 0) cands)) by (rewrite E; now left).
      apply filter_In in H as [H H0]. exists c. split; [exact H|].
      split; [reflexivity|now apply Z.eqb_eq].
    + destruct (Nat.eqb _ 1); [|discriminate]. intros H.
      apply select_first_in in H as (x & Hin & Hrec).
      rewrite <- E in Hin. apply filter_In in Hin as [Hin H0].
      exists x. split; [exact Hin|]. split; [exact Hrec|now apply Z.eqb_eq].
Qed.

(** X10: an attachment returned by [find_attachment] is one of the list
    and either carries the non-blank normalized reference of the
    transaction, or matches its amount while the transaction has a date,
    with a name similarity of at least one half when the transaction has a
    contact and a date distance of zero when it has none. *)
Theorem find_attachment_sound (tx : Transaction) (atts : list Attachment)
        (a : Attachment) (Hfind : find_attachment tx atts = Some a) :
  In a atts /\
  ((PyStr.truthy (_normalize_reference (tx_reference tx)) = true /\
    _reference_match tx a = true) \/
   (exists d, _parse_date (tx_date tx) = Some d /\
              _is_amount_match tx a = true /\
              if PyStr.truthy (tx_contact tx)
              then (1 # 2 <= _best_name_similarity (tx_contact tx) a)%Q
              else _date_distance_days d a = 0)).
Proof.
  unfold find_attachment in Hfind.
  destruct (attachment_by_reference tx atts) as [b|] eqn:Href.
  - injection Hfind as <-. unfold attachment_by_reference in Href.
    destruct (PyStr.truthy _) eqn:Ht; [|discriminate].
    apply find_some in Href as [Hin Hm]. split; [exact Hin|]. left. now split.
  - destruct (_parse_date (tx_date tx)) as [d|] eqn:Hd; [|discriminate].
    apply accept_attachment_sound in Hfind as (c & Hin & <- & Hacc).
    apply amt_candidates_in in Hin as (b & Hb & Hm & ->).
    split; [exact Hb|]. right. exists d. split; [reflexivity|]. split; [exact Hm|].
    exact Hacc.
Qed.

Lemma find_attachment_sound_witness :
  In NameSample.half [NameSample.third; NameSample.half; NameSample.full] /\
  (1 # 2 <= _best_name_similarity (tx_contact NameSample.tx) NameSample.half)%Q.
Proof.
  destruct (find_attachment_sound NameSample.tx
              [NameSample.third; NameSample.half; NameSample.full]
              NameSample.half eq_refl) as [Hin [[H _]|(d & _ & _ & H)]].
  - discriminate H.
  - split; [exact Hin|exact H].
Defined.

Lemma same_day_unique_sound {R : Type} (cands : list (cand R)) (r : R) :
  same_day_unique cands = Some r ->
  exists c, In c cands /\ c_rec c = r /\ c_dist c = 0.
Proof.
  unfold same_day_unique. destruct (Nat.eqb _ 1); [|discriminate].
  destruct (hd_error _) as [c|] eqn:E; [|discriminate]. intros [= <-].
  apply hd_error_in, filter_In in E as [E H0]. exists c.
  split; [exact E|]. split; [reflexivity|now apply Z.eqb_eq].
Qed.

(** X11: a transaction returned by [find_transaction] is one of the list
    and either carries the non-blank normalized reference of the
    attachment, or matches its total and has a date, and then either it has
    a contact, the attachment names a counterparty and its score is at
    least [1.5], or it is dated on one of the attachment's dates. *)
Theorem find_transaction_sound (att : Attachment) (txs : list Transaction)
        (t : Transaction) (Hfind : find_transaction att txs = Some t) :
  In t txs /\
  ((PyStr.truthy (_normalize_reference (reference (get_data att))) = true /\
    _reference_match t att = true) \/
   (exists d, _parse_date (tx_date t) = Some d /\
              _is_amount_match t att = true /\
              ((PyStr.truthy (tx_contact t) = true /\ _attachment_names att <> [] /\
                (3 # 2 <= composite_score (_best_name_similarity (tx_contact t) att)
                                          (_date_distance_days d att))%Q) \/
               has_date att d))).
Proof.
  unfold find_transaction in Hfind.
  destruct (transaction_by_reference att txs) as [b|] eqn:Href.
  - injection Hfind as <-. unfold transaction_by_reference in Href.
    destruct (PyStr.truthy _) eqn:Ht; [|discriminate].
    apply find_some in Href as [Hin Hm]. split; [exact Hin|]. left. now split.
  - rewrite accept_transaction_cases in Hfind. cbv zeta in Hfind.
    destruct (negb (is_empty (_attachment_names att)) && _ && _) eqn:E.
    + apply andb_prop in E as [E _]. apply andb_prop in E as [En _].
      apply select_first_in in Hfind as (c & Hin & <-).
      apply filter_In in Hin as [Hin Hs]. apply filter_In in Hin as [Hin Hc].
      apply candidates_in in Hin as (b & d & Hb & Hm & Hd & ->).
      split; [exact Hb|]. right. exists d. split; [exact Hd|]. split; [exact Hm|].
      left. split; [exact Hc|]. split.
      * intros E0. rewrite E0 in En. discriminate En.
      * now apply Qle_bool_iff.
    + apply same_day_unique_sound in Hfind as (c & Hin & <- & H0).
      apply candidates_in in Hin as (b & d & Hb & Hm & Hd & ->).
      split; [exact Hb|]. right. exists d. split; [exact Hd|]. split; [exact Hm|].
      right. now apply date_distance_zero.
Qed.

Lemma find_transaction_sound_witness :
  In TxSample.same_day [TxSample.same_day; TxSample.undated; TxSample.named] /\
  find_transaction TxSample.anonymous
    [TxSample.same_day; TxSample.undated; TxSample.named] = Some TxSample.same_day.
Proof.
  split; [|reflexivity].
  apply (find_transaction_sound TxSample.anonymous
           [TxSample.same_day; TxSample.undated; TxSample.named]
           TxSample.same_day eq_refl).
Defined.

(** ** Ties in the ranking *)

Lemma hd_insert {R : Type} (id : R -> Z) (c : cand R) (l : list (cand R)) :
  hd_error (insert id c l) =
  match l with
  | [] => Some c
  | h :: _ => if key_ltb id h c then Some h else Some c
  end.
Proof. destruct l as [|h t]; simpl; [reflexivity|]. now destruct (key_ltb id h c). Qed.

Lemma sort_head_split {R : Type} (id : R -> Z) (l : list (cand R)) :
  l <> [] ->
  exists l1 c l2,
    l = l1 ++ c :: l2 /\ hd_error (sort id l) = Some c /\
    (forall x, In x l1 -> ranks_before id c x) /\
    (forall x, In x l2 -> ranks_no_later id c x).
Proof.
  induction l as [|h t IH]; intros Hne; [now elim Hne|].
  destruct t as [|h' t'].
  - exists [], h, []. simpl. repeat split; intros x [].
  - destruct IH as (t1 & c' & t2 & Ht & Hhd & Hb & Hn); [discriminate|].
    cbn [sort]. cbn [sort] in Hhd. rewrite hd_insert.
    destruct (insert id h' (sort id t')) as [|m s] eqn:Es; [discriminate Hhd|].
    injection Hhd as ->.
    destruct (key_ltb id c' h) eqn:E.
    + exists (h :: t1), c', t2. rewrite Ht. split; [reflexivity|].
      split; [reflexivity|]. split; [|exact Hn].
      intros x [<-|Hx]; [now apply key_ltb_spec|now apply Hb].
    + apply key_ltb_false in E.
      exists [], h, (h' :: t'). split; [reflexivity|]. split; [reflexivity|].
      split; [intros x []|]. intros x Hx. rewrite Ht in Hx.
      apply ranks_no_later_trans with c'; [exact E|].
      apply in_app_or in Hx as [Hx|[<-|Hx]].
      * now apply ranks_before_no_later, Hb.
      * destruct (ranks_total id c' c'); assumption.
      * now apply Hn.
Qed.

(** X12: the ranked selection is stable. The record returned belongs to a
    candidate that ranks strictly before everything in front of it in the
    input and no later than everything behind it: among candidates that tie
    on score, date distance and id, the first in input order is returned. *)
Theorem select_first_stable {R : Type} (id : R -> Z) (l : list (cand R))
        (Hne : l <> []) :
  exists l1 c l2,
    l = l1 ++ c :: l2 /\ select_first id l = Some (c_rec c) /\
    (forall x, In x l1 -> ranks_before id c x) /\
    (forall x, In x l2 -> ranks_no_later id c x).
Proof.
  destruct (sort_head_split id l Hne) as (l1 & c & l2 & Hl & Hhd & Hb & Hn).
  exists l1, c, l2. split; [exact Hl|]. split; [|now split].
  unfold select_first. destruct (sort id l); [discriminate Hhd|].
  now injection Hhd as ->.
Qed.

Lemma select_first_stable_witness :
  select_first att_id [TieSample.c3; TieSample.c1; TieSample.c2] = Some TieSample.r1 /\
  select_first att_id [TieSample.c3; TieSample.c2; TieSample.c1] = Some TieSample.r2 /\
  exists l1 c l2,
    [TieSample.c3; TieSample.c1; TieSample.c2] = l1 ++ c :: l2 /\
    select_first att_id [TieSample.c3; TieSample.c1; TieSample.c2] = Some (c_rec c) /\
    (forall x, In x l1 -> ranks_before att_id c x) /\
    (forall x, In x l2 -> ranks_no_later att_id c x).
Proof.
  split; [reflexivity|]. split; [reflexivity|].
  apply (select_first_stable att_id [TieSample.c3; TieSample.c1; TieSample.c2]).
  discriminate.
Defined.

(** ** The score as a function of similarity and distance *)

Lemma inject_Z_le (x y : Z) : x <= y -> (inject_Z x <= inject_Z y)%Q.
Proof. intros H. unfold Qle. simpl. lia. Qed.

Lemma date_bonus_value (dist : Z) :
  dist <= 30 -> (date_bonus dist == 1 - inject_Z dist * (1 # 30))%Q.
Proof.
  intros H. unfold date_bonus. apply Z.leb_le in H. rewrite H. reflexivity.
Qed.

Lemma date_bonus_antitone (d1 d2 : Z) :
  d2 <= d1 -> (date_bonus d1 <= date_bonus d2)%Q.
Proof.
  intros H. destruct (Z_le_gt_dec d1 30) as [H1|H1].
  - rewrite (date_bonus_value d1 H1), (date_bonus_value d2) by lia.
    pose proof (inject_Z_le d2 d1 H). lra.
  - rewrite (date_bonus_far d1) by lia.
    destruct (Z_le_gt_dec d2 30) as [H2|H2].
    + rewrite (date_bonus_value d2 H2).
      pose proof (inject_Z_le d2 30 H2) as Hq.
      change (inject_Z 30) with 30%Q in Hq. lra.
    + rewrite (date_bonus_far d2) by lia. apply Qle_refl.
Qed.

(** X13: the composite score never decreases when the name similarity
    grows or the date distance shrinks. *)
Theorem composite_score_monotone (s1 s2 : Q) (d1 d2 : Z)
        (Hs : (s1 <= s2)%Q) (Hd : d2 <= d1) :
  (composite_score s1 d1 <= composite_score s2 d2)%Q.
Proof.
  unfold composite_score. pose proof (date_bonus_antitone d1 d2 Hd). lra.
Qed.

Lemma composite_score_monotone_witness :
  (composite_score (1 # 3) 20 <= composite_score (1 # 2) 4)%Q.
Proof. apply composite_score_monotone; [discriminate|lia]. Defined.

(** ** The threshold [1.5] of [find_transaction] *)





(** ** Records that match neither reference nor amount *)

Lemma amt_candidates_app (tx : Transaction) (d : Z) (l1 l2 : list Attachment) :
  amt_candidates tx d (l1 ++ l2) = amt_candidates tx d l1 ++ amt_candidates tx d l2.
Proof. unfold amt_candidates. apply flat_map_app. Qed.

Lemma amt_candidates_skip (tx : Transaction) (d : Z) (a : Attachment)
      (before after : list Attachment) :
  _is_amount_match tx a = false ->
  amt_candidates tx d (before ++ a :: after) = amt_candidates tx d (before ++ after).
Proof.
  intros H. rewrite !amt_candidates_app. f_equal.
  change (a :: after) with ([a] ++ after). rewrite amt_candidates_app.
  unfold amt_candidates at 1. simpl. now rewrite H.
Qed.

Lemma candidates_skip_amount (att : Attachment) (t : Transaction)
      (before after : list Transaction) :
  _is_amount_match t att = false ->
  candidates att (before ++ t :: after) = candidates att (before ++ after).
Proof.
  intros H. rewrite !candidates_app. f_equal.
  change (t :: after) with ([t] ++ after). rewrite candidates_app.
  unfold candidates at 1. simpl. now rewrite H.
Qed.

(** X15: a record that matches neither the reference nor the amount has no
    influence: taking it out of the list changes the result of neither
    function. *)
Theorem unrelated_record_ignored :
  (forall tx a before after,
     _reference_match tx a = false -> _is_amount_match tx a = false ->
     find_attachment tx (before ++ a :: after) = find_attachment tx (before ++ after)) /\
  (forall att t before after,
     _reference_match t att = false -> _is_amount_match t att = false ->
     find_transaction att (before ++ t :: after)
     = find_transaction att (before ++ after)).
Proof.
  split.
  - intros tx a before after Hr Hm. unfold find_attachment, attachment_by_reference.
    rewrite (find_skip (fun att => _reference_match tx att) before after a Hr).
    destruct (if PyStr.truthy _ then _ else None); [reflexivity|].
    destruct (_parse_date (tx_date tx)) as [d|]; [|reflexivity].
    now rewrite (amt_candidates_skip tx d a before after Hm).
  - intros att t before after Hr Hm. unfold find_transaction, transaction_by_reference.
    rewrite (find_skip _ before after t Hr).
    now rewrite (candidates_skip_amount att t before after Hm).
Qed.

Lemma unrelated_record_ignored_witness :
  find_transaction NearSample.att [NearSample.other; NearSample.tx]
  = find_transaction NearSample.att [NearSample.tx].
Proof.
  apply (proj2 unrelated_record_ignored NearSample.att NearSample.other [] [NearSample.tx]);
    reflexivity.
Defined.

(** ** [_parse_date] on ISO dates *)

Lemma digit_char_ok (k : Z) :
  0 <= k <= 9 ->
  PyStr.is_digit (digit_char k) = true /\ PyDate.digit_val (digit_char k) = k.
Proof.
  intros H.
  assert (E : k = 0 \/ k = 1 \/ k = 2 \/ k = 3 \/ k = 4 \/ k = 5 \/ k = 6 \/ k = 7
              \/ k = 8 \/ k = 9) by lia.
  repeat (destruct E as [->|E]; [split; reflexivity|]). subst k. split; reflexivity.
Qed.

Ltac div_mod_lia := Z.div_mod_to_equations; lia.

Lemma re_year_iso (y : Z) (r : string) :
  0 <= y <= 9999 ->
  PyDate.re_year
    (String (digit_char (y / 1000))
       (String (digit_char (y / 100 mod 10))
          (String (digit_char (y / 10 mod 10))
             (String (digit_char (y mod 10)) r))))
  = Some (y, r).
Proof.
  intros H. unfold PyDate.re_year.
  destruct (digit_char_ok (y / 1000)) as [Ha Va]; [div_mod_lia|].
  destruct (digit_char_ok (y / 100 mod 10)) as [Hb Vb]; [div_mod_lia|].
  destruct (digit_char_ok (y / 10 mod 10)) as [Hc Vc]; [div_mod_lia|].
  destruct (digit_char_ok (y mod 10)) as [Hd Vd]; [div_mod_lia|].
  rewrite Ha, Hb, Hc, Hd, Va, Vb, Vc, Vd. cbn [andb]. do 2 f_equal. div_mod_lia.
Qed.

Lemma is_digit_val (c : ascii) :
  PyStr.is_digit c = true -> 0 <= PyDate.digit_val c <= 9.
Proof.
  destruct c as [[] [] [] [] [] [] [] []]; intros H;
    solve [discriminate H | vm_compute; split; discriminate].
Qed.

Lemma re_year_bound (s r : string) (y : Z) :
  PyDate.re_year s = Some (y, r) -> 0 <= y <= 9999.
Proof.
  unfold PyDate.re_year.
  destruct s as [|a [|b [|c [|d s]]]]; try discriminate.
  destruct (PyStr.is_digit a) eqn:Ha; [|discriminate].
  destruct (PyStr.is_digit b) eqn:Hb; [|discriminate].
  destruct (PyStr.is_digit c) eqn:Hc; [|discriminate].
  destruct (PyStr.is_digit d) eqn:Hd; [|discriminate].
  cbn [andb]. intros E.
  assert (Hy : y = 1000 * PyDate.digit_val a + 100 * PyDate.digit_val b
                   + 10 * PyDate.digit_val c + PyDate.digit_val d) by congruence.
  pose proof (is_digit_val a Ha). pose proof (is_digit_val b Hb).
  pose proof (is_digit_val c Hc). pose proof (is_digit_val d Hd). lia.
Qed.

Lemma first_match_some {A B : Type} (alts : list (string -> option (A * string)))
      (k : A -> string -> option B) (s : string) (b : B) :
  PyDate.first_match alts k s = Some b ->
  exists v r, k v r = Some b.
Proof.
  induction alts as [|alt rest IH]; simpl; [discriminate|].
  destruct (alt s) as [[v r]|]; [|exact IH].
  destruct (k v r) as [b'|] eqn:E; [|exact IH].
  intros [= <-]. now exists v, r.
Qed.

Lemma re_match_year_bound (v rest : string) (y m d : Z) :
  PyDate.re_match v = Some (y, m, d, rest) -> 0 <= y <= 9999.
Proof.
  unfold PyDate.re_match.
  destruct (PyDate.re_year v) as [[y0 r1]|] eqn:Ey; [|discriminate].
  destruct (PyDate.expect_dash r1) as [r2|]; [|discriminate].
  intros H. apply first_match_some in H as (m0 & r3 & H).
  destruct (PyDate.expect_dash r3) as [r4|]; [|discriminate].
  apply first_match_some in H as (d0 & r5 & H). injection H as <- _ _ _.
  now apply (re_year_bound v r1).
Qed.

Lemma days_in_month_le (y m : Z) : PyDate.days_in_month y m <= 31.
Proof.
  unfold PyDate.days_in_month.
  repeat match goal with |- context [if ?b then _ else _] => destruct b end; lia.
Qed.

Lemma month_day_iso (Y m d : Z) :
  1 <= m <= 12 -> 1 <= d <= 31 ->
  PyDate.first_match PyDate.re_month_alts
    (fun m r3 =>
       match PyDate.expect_dash r3 with
       | None => None
       | Some r4 =>
           PyDate.first_match PyDate.re_day_alts (fun d r5 => Some (Y, m, d, r5)) r4
       end)
    (two_digits m ++ String "-" (two_digits d))%string
  = Some (Y, m, d, EmptyString).
Proof.
  intros Hm Hd.
  assert (Em : m = 1 \/ m = 2 \/ m = 3 \/ m = 4 \/ m = 5 \/ m = 6 \/ m = 7 \/ m = 8
               \/ m = 9 \/ m = 10 \/ m = 11 \/ m = 12) by lia.
  assert (Ed : d = 1 \/ d = 2 \/ d = 3 \/ d = 4 \/ d = 5 \/ d = 6 \/ d = 7 \/ d = 8
               \/ d = 9 \/ d = 10 \/ d = 11 \/ d = 12 \/ d = 13 \/ d = 14 \/ d = 15
               \/ d = 16 \/ d = 17 \/ d = 18 \/ d = 19 \/ d = 20 \/ d = 21 \/ d = 22
               \/ d = 23 \/ d = 24 \/ d = 25 \/ d = 26 \/ d = 27 \/ d = 28 \/ d = 29
               \/ d = 30 \/ d = 31) by lia.
  clear Hm Hd.
  repeat (destruct Em as [->|Em]);
    try subst m;
    repeat (destruct Ed as [->|Ed]); try subst d; reflexivity.
Qed.

Lemma strptime_iso (y m d : Z) :
  valid_day y m d -> PyDate.strptime (iso_date y m d) = PyDate.Date (PyDate.ymd2ord y m d).
Proof.
  intros (Hy & Hm & Hd). pose proof (days_in_month_le y m) as Hdim.
  unfold PyDate.strptime, PyDate.re_match, iso_date.
  rewrite re_year_iso by lia. cbn [PyDate.expect_dash Ascii.eqb Bool.eqb].
  rewrite month_day_iso by lia.
  assert (E : (1 <=? y) && (1 <=? m) && (m <=? 12) && (1 <=? d)
              && (d <=? PyDate.days_in_month y m) = true).
  { rewrite !andb_true_iff, !Z.leb_le. lia. }
  now rewrite E.
Qed.

(** X16: [_parse_date] reads every zero-padded [YYYY-MM-DD] text of a day
    of the calendar (years 1 to 9999) as the ordinal of that day, and
    whatever it accepts is the ordinal of such a day: a day that does not
    exist is never returned. *)
Theorem parse_date_iso :
  (forall y m d, valid_day y m d ->
                 _parse_date (Some (iso_date y m d)) = Some (PyDate.ymd2ord y m d)) /\
  (forall value o, _parse_date value = Some o ->
                   exists y m d, valid_day y m d /\ o = PyDate.ymd2ord y m d).
Proof.
  split.
  - intros y m d H. unfold _parse_date.
    change (negb (PyStr.truthy (Some (iso_date y m d)))) with false. cbv iota.
    now rewrite (strptime_iso y m d H).
  - intros value o. unfold _parse_date.
    destruct (negb (PyStr.truthy value)); [discriminate|].
    destruct value as [v|]; [|discriminate].
    unfold PyDate.strptime.
    destruct (PyDate.re_match v) as [[[[y m] d] rest]|] eqn:Em; [|discriminate].
    destruct rest; [|discriminate].
    destruct ((1 <=? y) && (1 <=? m) && (m <=? 12) && (1 <=? d)
              && (d <=? PyDate.days_in_month y m)) eqn:E; [|discriminate].
    intros [= <-]. exists y, m, d. split; [|reflexivity].
    rewrite !andb_true_iff, !Z.leb_le in E.
    pose proof (re_match_year_bound v _ y m d Em) as Hy.
    unfold valid_day. lia.
Qed.

Lemma parse_date_iso_witness :
  iso_date 2024 2 29 = "2024-02-29" /\
  _parse_date (Some (iso_date 2024 2 29)) = Some (PyDate.ymd2ord 2024 2 29) /\
  exists y m d, valid_day y m d /\ 738895 = PyDate.ymd2ord y m d.
Proof.
  destruct parse_date_iso as [Hiso Hval].
  split; [reflexivity|]. split.
  - apply Hiso. unfold valid_day. vm_compute. intuition discriminate.
  - apply (Hval (Some "2024-01-10")). reflexivity.
Defined.

(** ** When a match is found *)

Lemma near_two_all (tx : Transaction) (d : Z) (l : list Attachment) :
  PyStr.truthy (tx_contact tx) = false ->
  (forall a, In a l -> _date_distance_days d a = 0) ->
  filter (fun c => near_two (c_score c)) (List.map (att_cand tx d) l)
  = List.map (att_cand tx d) l.
Proof.
  intros Hc Hl. apply filter_all. intros c Hin.
  apply in_map_iff in Hin as (a & <- & Ha).
  apply near_two_of_two, no_contact_exact_score; [exact Hc|now apply Hl].
Qed.

Lemma exact_date_matches_zero (tx : Transaction) (d : Z) (atts : list Attachment)
      (a : Attachment) :
  In a (exact_date_matches tx d atts) -> _date_distance_days d a = 0.
Proof.
  intros H. apply filter_In in H as [_ H]. apply andb_prop in H as [_ H].
  now apply Z.eqb_eq.
Qed.

(** X17: once the reference has not resolved and the date of the
    transaction parses, [find_attachment] finds a match exactly when, with
    a contact, some amount-matched attachment has a name similarity of at
    least one half (its dates only rank, they never reject), and, without a
    contact, exactly one amount-matched attachment is dated on the day of
    the transaction. *)
Theorem find_attachment_accepts (tx : Transaction) (atts : list Attachment) (d : Z)
        (Href : attachment_by_reference tx atts = None)
        (Hd : _parse_date (tx_date tx) = Some d) :
  (exists a, find_attachment tx atts = Some a) <->
  if PyStr.truthy (tx_contact tx)
  then name_matches tx atts <> []
  else List.length (exact_date_matches tx d atts) = 1%nat.
Proof.
  destruct (PyStr.truthy (tx_contact tx)) eqn:Hc.
  - rewrite (find_attachment_contact tx atts d Hc Href Hd). unfold _select_best.
    split.
    + intros (a & H) E. rewrite E in H. discriminate H.
    + intros Hne.
      destruct (select_first_best att_id (List.map (att_cand tx d) (name_matches tx atts)))
        as (c & _ & Hsel & _).
      { destruct (name_matches tx atts); [now elim Hne|discriminate]. }
      now exists (c_rec c).
  - rewrite (find_attachment_scoring tx atts d Href Hd).
    rewrite (accept_attachment_no_contact tx _ Hc). cbv zeta.
    rewrite exact_date_candidates. fold (exact_date_matches tx d atts).
    pose proof (near_two_all tx d (exact_date_matches tx d atts) Hc
                  (exact_date_matches_zero tx d atts)) as Hall.
    destruct (exact_date_matches tx d atts) as [|a [|a' r]].
    + simpl. split; [intros (a & H); discriminate H|discriminate].
    + simpl. split; [reflexivity|]. intros _. now exists a.
    + rewrite Hall. cbn [List.map List.length Nat.eqb].
      split; [intros (x & H); discriminate H|discriminate].
Qed.

Lemma find_attachment_accepts_witness :
  exists a, find_attachment NameSample.tx [NameSample.third; NameSample.full] = Some a.
Proof.
  apply (find_attachment_accepts NameSample.tx [NameSample.third; NameSample.full]
           738917 eq_refl eq_refl).
  discriminate.
Defined.

(** X18: once the reference has not resolved, [find_transaction] finds a
    match exactly when the attachment names a counterparty and some
    candidate with a contact scores at least [1.5], or exactly one candidate
    is dated on a date of the attachment. *)
Theorem find_transaction_accepts (att : Attachment) (txs : list Transaction)
        (Href : transaction_by_reference att txs = None) :
  (exists t, find_transaction att txs = Some t) <->
  (_attachment_names att <> [] /\
   filter (fun c => Qle_bool (3 # 2) (c_score c))
          (filter (fun c => PyStr.truthy (tx_contact (c_rec c))) (candidates att txs))
   <> []) \/
  List.length (filter (fun c => c_dist c =? 0) (candidates att txs)) = 1%nat.
Proof.
  assert (Hsame : (exists t, same_day_unique (candidates att txs) = Some t) <->
                  List.length (filter (fun c => c_dist c =? 0) (candidates att txs))
                  = 1%nat).
  { unfold same_day_unique.
    destruct (filter _ (candidates att txs)) as [|c [|c' r]]; simpl.
    - split; [intros (t & H); discriminate H|discriminate].
    - split; [reflexivity|]. intros _. now exists (c_rec c).
    - split; [intros (t & H); discriminate H|discriminate]. }
  unfold find_transaction. rewrite Href, accept_transaction_cases. cbv zeta.
  set (w := filter (fun c => PyStr.truthy (tx_contact (c_rec c))) (candidates att txs)).
  set (q := filter (fun c => Qle_bool (3 # 2) (c_score c)) w).
  destruct (_attachment_names att) as [|n names].
  - cbn [is_empty negb andb]. rewrite Hsame. split; [now right|].
    intros [[H _]|H]; [now elim H|exact H].
  - destruct q as [|c0 q0] eqn:Eq.
    + rewrite andb_false_r. rewrite Hsame. split; [now right|].
      intros [[_ H]|H]; [now elim H|exact H].
    + assert (Hw : is_empty w = false).
      { destruct w; [discriminate Eq|reflexivity]. }
      rewrite Hw. cbn [is_empty negb andb].
      split; [intros _; left; split; discriminate|]. intros _.
      destruct (select_first_best tx_id (c0 :: q0)) as (c & _ & Hsel & _);
        [discriminate|].
      now exists (c_rec c).
Qed.

Lemma find_transaction_accepts_witness :
  exists t, find_transaction TxSample.att [TxSample.undated; TxSample.named] = Some t.
Proof.
  apply (find_transaction_accepts TxSample.att [TxSample.undated; TxSample.named] eq_refl).
  left. split; discriminate.
Defined.

(** ** Ordinals count calendar days *)

Lemma days_before_month_succ (y m : Z) :
  1 <= m ->
  PyDate.days_before_month y (m + 1)
  = PyDate.days_before_month y m + PyDate.days_in_month y m.
Proof.
  intros H. unfold PyDate.days_before_month.
  replace (m + 1 - 1) with m by lia.
  replace (Z.to_nat m) with (S (Z.to_nat (m - 1))) by lia.
  cbn [PyDate.days_before_month_aux].
  now replace (Z.of_nat (S (Z.to_nat (m - 1)))) with m by lia.
Qed.

Lemma days_before_december (y : Z) :
  PyDate.days_before_month y 12 + 31 = if PyDate.is_leap y then 366 else 365.
Proof.
  assert (E : PyDate.days_before_month y 12
              = 0 + 31 + (if PyDate.is_leap y then 29 else 28) + 31 + 30 + 31 + 30
                + 31 + 31 + 30 + 31 + 30) by reflexivity.
  rewrite E. destruct (PyDate.is_leap y); reflexivity.
Qed.

Lemma days_before_year_succ (y : Z) :
  PyDate.days_before_year (y + 1)
  = PyDate.days_before_year y + if PyDate.is_leap y then 366 else 365.
Proof.
  unfold PyDate.days_before_year, PyDate.is_leap. cbv zeta.
  replace (y + 1 - 1) with y by lia.
  destruct (Z.eqb_spec (y mod 4) 0), (Z.eqb_spec (y mod 100) 0),
           (Z.eqb_spec (y mod 400) 0); cbn [andb orb negb]; div_mod_lia.
Qed.

Lemma ymd2ord_next (y m d : Z) :
  valid_day y m d ->
  let '(y', m', d') := next_day y m d in
  PyDate.ymd2ord y' m' d' = PyDate.ymd2ord y m d + 1 /\
  (y < 9999 \/ m < 12 \/ d < 31 -> valid_day y' m' d').
Proof.
  intros (Hy & Hm & Hd). unfold next_day.
  destruct (Z.ltb_spec d (PyDate.days_in_month y m)) as [Hlt|Hge].
  - split; [unfold PyDate.ymd2ord; lia|]. intros _. unfold valid_day. lia.
  - assert (Ed : d = PyDate.days_in_month y m) by lia.
    destruct (Z.ltb_spec m 12) as [Hm12|Hm12].
    + split.
      * unfold PyDate.ymd2ord. rewrite (days_before_month_succ y m) by lia. lia.
      * intros _. unfold valid_day. split; [lia|]. split; [lia|].
        assert (28 <= PyDate.days_in_month y (m + 1)).
        { unfold PyDate.days_in_month.
          repeat match goal with |- context [if ?b then _ else _] => destruct b end; lia. }
        lia.
    + assert (m = 12) by lia. subst m.
      change (PyDate.days_in_month y 12) with 31 in Ed. subst d.
      split.
      * unfold PyDate.ymd2ord. rewrite days_before_year_succ.
        pose proof (days_before_december y) as H12.
        change (PyDate.days_before_month (y + 1) 1) with 0. lia.
      * intros H. unfold valid_day.
        change (PyDate.days_in_month (y + 1) 1) with 31. lia.
Qed.

(** X19: ordinals count calendar days: the text of the day that follows a
    day of the calendar, also across the end of a month, of February in a
    leap year and of the year, parses to the ordinal of that day plus one. *)
Theorem parse_date_next_day (y m d : Z)
        (Hv : valid_day y m d) (Hlast : y < 9999 \/ m < 12 \/ d < 31) :
  let '(y', m', d') := next_day y m d in
  valid_day y' m' d' /\
  exists o, _parse_date (Some (iso_date y m d)) = Some o /\
            _parse_date (Some (iso_date y' m' d')) = Some (o + 1).
Proof.
  pose proof (ymd2ord_next y m d Hv) as H.
  destruct (next_day y m d) as [[y' m'] d']. destruct H as [Hord Hval].
  specialize (Hval Hlast). split; [exact Hval|].
  exists (PyDate.ymd2ord y m d). unfold _parse_date.
  change (negb (PyStr.truthy (Some (iso_date y m d)))) with false.
  change (negb (PyStr.truthy (Some (iso_date y' m' d')))) with false. cbv iota.
  rewrite (strptime_iso y m d Hv), (strptime_iso y' m' d' Hval).
  split; [reflexivity|now rewrite Hord].
Qed.

Lemma parse_date_next_day_witness :
  _parse_date (Some "2024-02-29") = Some 738945 /\
  _parse_date (Some "2024-03-01") = Some 738946 /\
  exists o, _parse_date (Some (iso_date 2023 12 31)) = Some o /\
            _parse_date (Some (iso_date 2024 1 1)) = Some (o + 1).
Proof.
  split; [reflexivity|]. split; [reflexivity|].
  assert (Hv : valid_day 2023 12 31) by (unfold valid_day; vm_compute; intuition discriminate).
  assert (Hlast : 2023 < 9999 \/ 12 < 12 \/ 31 < 31) by (left; reflexivity).
  exact (proj2 (parse_date_next_day 2023 12 31 Hv Hlast)).
Defined.
